(** * closeclaw: rendered-page analysis scripts

    Shallow embedding of
      - apps/web/scripts/deep_seo_audit.py    (function [audit])
      - apps/web/scripts/capture_screenshot.py (function [capture])

    Both scripts drive a headless browser, evaluate small JavaScript
    snippets inside the rendered page and assemble a Python dict.  The
    embedding keeps that shape: the rendered page is a value of type
    [Document], every in-page snippet is a function over it, and the two
    entry points are written in a small error-and-state monad whose state
    is the browser process.

    Numbers.  JavaScript and Python numbers are binary64 doubles.  A
    finite double is a rational, so numbers are values of [Q]; every
    operation that rounds in the code (parsing a decimal, adding,
    dividing, rounding to a number of decimals) rounds here too, to the
    nearest double with ties to the even mantissa ([Double.rnd]).
    Comparisons and [Math.round] are exact on doubles.  Magnitudes are
    taken below 2^1024: overflow to infinity is not modelled.

    Strings are sequences of code units below 256. *)

From Stdlib Require Import List String Ascii Bool ZArith QArith Qround Qabs Lia Lqa.
From Stdlib Require Import DecimalString.
Import ListNotations.

Open Scope string_scope.
Open Scope Z_scope.

(* ------------------------------------------------------------------ *)
(** ** Binary64 arithmetic on rationals *)

Module Double.

Definition pow2 (e : Z) : Q :=
  if 0 <=? e then inject_Z (2 ^ e) else Qinv (inject_Z (2 ^ (- e))).

(** Nearest integer, ties to the even neighbour. *)
Definition nearest_even (y : Q) : Z :=
  let f := Qfloor y in
  match Qcompare (y - inject_Z f) (1 # 2) with
  | Lt => f
  | Gt => f + 1
  | Eq => if Z.even f then f else f + 1
  end.

(** The integer [k] with 2^k <= |x| < 2^(k+1), for [x] other than 0. *)
Definition ilog2 (x : Q) : Z :=
  let k := Z.log2 (Z.abs (Qnum x)) - Z.log2 (Z.pos (Qden x)) in
  if Qle_bool (pow2 k) (Qabs x) then k else k - 1.

(** The double nearest to [x]: 53 bits of mantissa, exponents down to
    the subnormal range, ties to even. *)
Definition rnd (x : Q) : Q :=
  if Qeq_bool x 0 then 0%Q
  else
    let e := Z.max (ilog2 x - 52) (-1074) in
    Qred (inject_Z (nearest_even (x / pow2 e)) * pow2 e).

(** [x + y] and [x / y] on doubles *)
Definition add (x y : Q) : Q := rnd (x + y).

Definition div (x y : Q) : Q := rnd (x / y).

End Double.

(* ------------------------------------------------------------------ *)
(** ** JavaScript primitives used by the in-page snippets *)

Module JS.

(** [Math.round]: nearest integer, ties towards +infinity. *)
Definition Math_round (x : Q) : Z := Qfloor (x + (1 # 2)).

(** ECMAScript white space and line terminators below 256. *)
Definition is_space (c : ascii) : bool :=
  match nat_of_ascii c with
  | 9%nat | 10%nat | 11%nat | 12%nat | 13%nat | 32%nat | 160%nat => true
  | _ => false
  end.

Fixpoint trimStart (s : string) : string :=
  match s with
  | EmptyString => EmptyString
  | String c s' => if is_space c then trimStart s' else s
  end.

(** Drops trailing white space: a character is kept when it is not a
    space or when something survives after it. *)
Fixpoint trimEnd (s : string) : string :=
  match s with
  | EmptyString => EmptyString
  | String c s' =>
      match trimEnd s' with
      | EmptyString => if is_space c then EmptyString else String c EmptyString
      | t => String c t
      end
  end.

(** [s.trim()] *)
Definition trim (s : string) : string := trimEnd (trimStart s).

(** [s.slice(0, n)] for a non-negative literal [n]. *)
Fixpoint slice0 (n : nat) (s : string) : string :=
  match n, s with
  | O, _ => EmptyString
  | _, EmptyString => EmptyString
  | S n', String c s' => String c (slice0 n' s')
  end.

Fixpoint drop (n : nat) (s : string) : string :=
  match n, s with
  | O, _ => s
  | _, EmptyString => EmptyString
  | S n', String _ s' => drop n' s'
  end.

(** [s.slice(-n)]: the last [n] code units (all of [s] when shorter). *)
Definition slice_last (n : nat) (s : string) : string :=
  drop (String.length s - n) s.

Definition lower_char (c : ascii) : ascii :=
  let n := nat_of_ascii c in
  if andb (Nat.leb 65 n) (Nat.leb n 90) then ascii_of_nat (n + 32) else c.

(** [s.toLowerCase()] *)
Fixpoint toLowerCase (s : string) : string :=
  match s with
  | EmptyString => EmptyString
  | String c s' => String (lower_char c) (toLowerCase s')
  end.

Fixpoint startsWith (p s : string) : bool :=
  match p, s with
  | EmptyString, _ => true
  | String _ _, EmptyString => false
  | String a p', String b s' => andb (Ascii.eqb a b) (startsWith p' s')
  end.

(** [s.includes(p)] *)
Fixpoint includes (s p : string) : bool :=
  orb (startsWith p s)
      (match s with
       | EmptyString => false
       | String _ s' => includes s' p
       end).

(** [a || b] on values that are a string or null: the empty string and
    null are both falsy. *)
Definition or_else (a b : option string) : option string :=
  match a with
  | Some EmptyString | None => b
  | Some _ => a
  end.

(** [(a || EMPTY)], where EMPTY is the empty string literal *)
Definition or_empty (a : option string) : string :=
  match a with
  | Some s => s
  | None => EmptyString
  end.

(** [(a || d)] with a non-empty string literal [d]. *)
Definition or_default (a : option string) (d : string) : string :=
  match a with
  | Some EmptyString | None => d
  | Some s => s
  end.

(** *** parseFloat

    Longest prefix that is a decimal literal, after leading white space:
    sign, digits, fraction, exponent; the value is the double nearest to
    the decimal.  [None] stands for NaN.  The literal "Infinity" is not
    recognised (it yields NaN here). *)

Definition digit_of (c : ascii) : option Z :=
  let n := nat_of_ascii c in
  if andb (Nat.leb 48 n) (Nat.leb n 57) then Some (Z.of_nat (n - 48)) else None.

(** Reads a run of digits: accumulated value, number of digits read,
    rest of the string. *)
Fixpoint digits (acc : Z) (cnt : nat) (s : string) : Z * nat * string :=
  match s with
  | EmptyString => (acc, cnt, s)
  | String c s' =>
      match digit_of c with
      | Some d => digits (10 * acc + d) (S cnt) s'
      | None => (acc, cnt, s)
      end
  end.

Definition pow10 (e : Z) : Q :=
  if 0 <=? e then inject_Z (10 ^ e) else Qinv (inject_Z (10 ^ (- e))).

(** Optional exponent part; it is consumed only when at least one digit
    follows the sign. *)
Definition exponent (s : string) : Z :=
  match s with
  | String c s' =>
      if orb (Ascii.eqb c "e") (Ascii.eqb c "E") then
        let '(neg, s'') :=
          match s' with
          | String "-" r => (true, r)
          | String "+" r => (false, r)
          | _ => (false, s')
          end in
        let '(v, n, _) := digits 0 0 s'' in
        match n with
        | O => 0
        | _ => if neg then - v else v
        end
      else 0
  | EmptyString => 0
  end.

Definition unsigned_literal (s : string) : option Q :=
  let '(ip, ni, r) := digits 0 0 s in
  let '(fp, nf, r') :=
    match r with
    | String "." r1 => digits 0 0 r1
    | _ => (0, O, r)
    end in
  match ni, nf with
  | O, O => None
  | _, _ =>
      let m := (inject_Z ip + inject_Z fp * pow10 (- Z.of_nat nf))%Q in
      Some (Double.rnd (m * pow10 (exponent r')))
  end.

Definition parseFloat (s : string) : option Q :=
  match trimStart s with
  | String "-" r => option_map (fun q => Qred (- q)) (unsigned_literal r)
  | String "+" r => unsigned_literal r
  | r => unsigned_literal r
  end.


End JS.

(* ------------------------------------------------------------------ *)
(** ** Python primitives *)

Module Py.

(** Nearest integer, ties to the even neighbour. *)
Definition round_half_even (x : Q) : Z :=
  let f := Qfloor x in
  match Qcompare (x - inject_Z f) (1 # 2) with
  | Lt => f
  | Gt => f + 1
  | Eq => if Z.even f then f else f + 1
  end.

(** [round(x, ndigits)] on a float with [ndigits] >= 0: the exact value
    of the double is rounded to [ndigits] decimals, ties to even, and the
    double nearest to that decimal is returned. *)
Definition round (x : Q) (ndigits : nat) : Q :=
  let s := inject_Z (10 ^ Z.of_nat ndigits) in
  Double.rnd (inject_Z (round_half_even (x * s)) / s).

(** [sum(l)]: from 0, left to right, each addition rounded, as CPython's
    float loop adds up to version 3.11.  From 3.12 on the loop also
    carries a compensation term, which can move the last bit of the sum
    of three or more floats; that variant is not modelled. *)
Definition sum (l : list Q) : Q := fold_left Double.add l 0%Q.

(** The has-a-directory test behind [os.path.dirname(p)]: the directory
    part is empty exactly when [p] holds no slash. *)
Fixpoint has_dirname (p : string) : bool :=
  match p with
  | EmptyString => false
  | String c p' => orb (Ascii.eqb c "/") (has_dirname p')
  end.

(** [min(l)] on a non-empty list; the first of equal minima is kept. *)
Fixpoint min_from (m : Q) (l : list Q) : Q :=
  match l with
  | [] => m
  | x :: l' => min_from (if Qlt_le_dec x m then x else m) l'
  end.

Definition min (l : list Q) : option Q :=
  match l with
  | [] => None
  | x :: l' => Some (min_from x l')
  end.

(** [f'{n}'] for an int *)
Definition str_int (n : Z) : string := NilZero.string_of_int (Z.to_int n).

End Py.

(* ------------------------------------------------------------------ *)
(** ** The rendered page *)

Open Scope Q_scope.

(** [getBoundingClientRect()], viewport coordinates. *)
Record DOMRect : Type := {
  top : Q;
  left : Q;
  bottom : Q;
  width : Q;
  height : Q
}.

(** One DOM element, with what the snippets read from it.
    [ancestors] lists the local names of the enclosing elements, nearest
    first; [fontSize] and [fontWeight] are the computed style. *)
Record Element : Type := {
  localName : string;
  tagName : string;
  attributes : list (string * string);
  innerText : string;
  textContent : string;
  rect : DOMRect;
  fontSize : string;
  fontWeight : string;
  ancestors : list string
}.

(** [el.getAttribute(name)] *)
Fixpoint lookup_attr (name : string) (l : list (string * string)) : option string :=
  match l with
  | [] => None
  | (k, v) :: l' => if String.eqb k name then Some v else lookup_attr name l'
  end.

Definition getAttribute (name : string) (el : Element) : option string :=
  lookup_attr name (attributes el).

(** [el.closest(name) !== null]: the element itself or an ancestor. *)
Definition closest (name : string) (el : Element) : bool :=
  existsb (String.eqb name) (localName el :: ancestors el).

(** The selectors the scripts use: a group of type selectors
    ("h1, h2", "a, button") or one type selector with one attribute
    test (meta[name="robots"]). *)
Inductive Selector : Type :=
| SelTags (names : list string)
| SelAttr (name attr value : string).

(** The attributes of HTML elements whose values a selector compares
    without regard to ASCII case; the values of all others (name and
    property among them) are compared exactly. *)
Definition case_insensitive_attributes : list string :=
  [ "accept"; "accept-charset"; "align"; "alink"; "axis"; "bgcolor";
    "charset"; "checked"; "clear"; "codetype"; "color"; "compact";
    "declare"; "defer"; "dir"; "direction"; "disabled"; "enctype"; "face";
    "frame"; "hreflang"; "http-equiv"; "lang"; "language"; "link"; "media";
    "method"; "multiple"; "nohref"; "noresize"; "noshade"; "nowrap";
    "readonly"; "rel"; "rev"; "rules"; "scope"; "scrolling"; "selected";
    "shape"; "target"; "text"; "type"; "valign"; "valuetype"; "vlink" ].

(** [\[attr="value"\]] on the value [v] the element has. *)
Definition value_matches (attr value v : string) : bool :=
  if existsb (String.eqb attr) case_insensitive_attributes
  then String.eqb (JS.toLowerCase v) (JS.toLowerCase value)
  else String.eqb v value.

Definition matches (sel : Selector) (el : Element) : bool :=
  match sel with
  | SelTags names => existsb (String.eqb (localName el)) names
  | SelAttr name attr value =>
      andb (String.eqb (localName el) name)
           (match getAttribute attr el with
            | Some v => value_matches attr value v
            | None => false
            end)
  end.

(** The performance interface as the CLS snippet meets it. *)
Inductive Performance : Type :=
| PerfMissing                       (* no such object or method: the call raises *)
| PerfThrowing                      (* the query itself raises *)
| PerfTimeline (layout_shift : list Q).
                                    (* values of the layout shifts that
                                       occurred since navigation, as a
                                       PerformanceObserver is given them *)

Record FontFace : Type := {
  family : string;
  status : string
}.

(** The page after navigation and the settling wait. *)
Record Document : Type := {
  title : string;
  elements : list Element;          (* document order *)
  performance : Performance;
  fonts : list FontFace;
  scrollWidth : Z;
  clientWidth : Z
}.

(** [querySelectorAll] and [querySelector] *)
Definition query_selector_all (sel : Selector) (d : Document) : list Element :=
  filter (matches sel) (elements d).

Definition query_selector (sel : Selector) (d : Document) : option Element :=
  match query_selector_all sel d with
  | [] => None
  | el :: _ => Some el
  end.

(** [x < y] on numbers *)
Definition Qltb (x y : Q) : bool := negb (Qle_bool y x).

(** [r.top < window.innerHeight && r.bottom > 0]; the browser context
    sets [window.innerHeight] to the viewport height it was created
    with. *)
Definition in_viewport (innerHeight : Z) (r : DOMRect) : bool :=
  andb (Qltb (top r) (inject_Z innerHeight)) (Qltb 0 (bottom r)).

(** A JavaScript exception. *)
Inductive JsError : Type :=
| TypeError
| DOMException.

(** [performance.getEntriesByType("layout-shift")].  The browser the
    scripts launch (Chromium) keeps layout-shift entries out of the
    timeline buffer: they are delivered to a PerformanceObserver only,
    and this query returns no entry, whatever shifts occurred. *)
Definition getEntriesByType (p : Performance) : JsError + list Q :=
  match p with
  | PerfMissing => inl TypeError
  | PerfThrowing => inl DOMException
  | PerfTimeline _ => inr []
  end.

(* ------------------------------------------------------------------ *)
(** ** Fragments of the reports *)

Module Heading.
Record t : Type := {
  tag : string;
  text : string;
  fontSize : string;
  fontWeight : string;
  top : Z;
  aboveFold : bool
}.
End Heading.

Module TapTarget.
Record t : Type := {
  text : string;
  tag : string;
  width : Z;
  height : Z;
  top : Z;
  tooSmall : bool
}.
End TapTarget.

Module Image.
Record t : Type := {
  src : string;
  alt : option string;
  hasAlt : bool;
  width : Z;
  height : Z
}.
End Image.

Module Cta.
Record t : Type := {
  text : string;
  tag : string;
  top : Z;
  left : Z;
  width : Z;
  height : Z;
  visible : bool
}.
End Cta.

Module Logo.
Record t : Type := {
  tag : string;
  src : string;
  visible : bool
}.
End Logo.

Module Meta.
Record t : Type := {
  og_title : option string;
  og_description : option string;
  og_image : option string;
  og_url : option string;
  twitter_card : option string;
  twitter_title : option string;
  canonical : option string;
  robots : option string;
  viewport : option string
}.
End Meta.

(* ------------------------------------------------------------------ *)
(** ** deep_seo_audit.py: the in-page snippets and the report *)

Module DeepSeoAudit.

(** The CLS snippet: [cls] stays 0 when the query raises. *)
Definition cls_score (d : Document) : Q :=
  let cls := 0 in
  match getEntriesByType (performance d) with
  | inr entries => fold_left (fun sum e => Double.add sum e) entries 0
  | inl _ => cls
  end.

Definition heading_of (innerHeight : Z) (el : Element) : Heading.t :=
  let r := rect el in
  {| Heading.tag := tagName el;
     Heading.text := JS.slice0 80 (JS.trim (innerText el));
     Heading.fontSize := fontSize el;
     Heading.fontWeight := fontWeight el;
     Heading.top := JS.Math_round (top r);
     Heading.aboveFold := in_viewport innerHeight r |}.

Definition headings (innerHeight : Z) (d : Document) : list Heading.t :=
  map (heading_of innerHeight)
      (query_selector_all (SelTags ["h1"; "h2"; "h3"; "h4"; "h5"; "h6"]) d).

Definition tap_target_of (el : Element) : TapTarget.t :=
  let r := rect el in
  {| TapTarget.text := JS.slice0 40 (JS.trim (innerText el));
     TapTarget.tag := tagName el;
     TapTarget.width := JS.Math_round (width r);
     TapTarget.height := JS.Math_round (height r);
     TapTarget.top := JS.Math_round (top r);
     TapTarget.tooSmall := orb (Qltb (width r) 44) (Qltb (height r) 44) |}.

Definition nonzero_area (t : TapTarget.t) : bool :=
  andb (0 <? TapTarget.width t)%Z (0 <? TapTarget.height t)%Z.

Definition tap_targets (d : Document) : list TapTarget.t :=
  filter nonzero_area
         (map tap_target_of (query_selector_all (SelTags ["a"; "button"]) d)).

Definition small_targets (d : Document) : list TapTarget.t :=
  filter TapTarget.tooSmall (tap_targets d).

(** [get_meta(selector, attr)] *)
Definition get_meta (d : Document) (selector : Selector) (attr : string)
  : option string :=
  match query_selector selector d with
  | Some el => getAttribute attr el
  | None => None
  end.

Definition meta_property (v : string) : Selector := SelAttr "meta" "property" v.
Definition meta_name (v : string) : Selector := SelAttr "meta" "name" v.

Definition meta (d : Document) : Meta.t :=
  {| Meta.og_title := get_meta d (meta_property "og:title") "content";
     Meta.og_description := get_meta d (meta_property "og:description") "content";
     Meta.og_image := get_meta d (meta_property "og:image") "content";
     Meta.og_url := get_meta d (meta_property "og:url") "content";
     Meta.twitter_card := get_meta d (meta_name "twitter:card") "content";
     Meta.twitter_title := get_meta d (meta_name "twitter:title") "content";
     Meta.canonical := get_meta d (SelAttr "link" "rel" "canonical") "href";
     Meta.robots := get_meta d (meta_name "robots") "content";
     Meta.viewport := get_meta d (meta_name "viewport") "content" |}.

Definition ld_json_blocks (d : Document) : list string :=
  map (fun el => JS.trim (textContent el))
      (query_selector_all (SelAttr "script" "type" "application/ld+json") d).

Definition image_of (el : Element) : Image.t :=
  let r := rect el in
  {| Image.src := JS.slice_last 40 (JS.or_empty (getAttribute "src" el));
     Image.alt := getAttribute "alt" el;
     Image.hasAlt :=
       Nat.ltb 0 (String.length (JS.trim (JS.or_empty (getAttribute "alt" el))));
     Image.width := JS.Math_round (width r);
     Image.height := JS.Math_round (height r) |}.

Definition images (d : Document) : list Image.t :=
  map image_of (query_selector_all (SelTags ["img"]) d).

Definition font_faces (d : Document) : list FontFace :=
  firstn 10 (fonts d).

(** The filter of the body-text snippet: in the viewport and of
    positive height. *)
Definition body_visible (innerHeight : Z) (el : Element) : bool :=
  andb (in_viewport innerHeight (rect el)) (Qltb 0 (height (rect el))).

Fixpoint positive_sizes (l : list (option Q)) : list Q :=
  match l with
  | [] => []
  | Some s :: l' => if Qltb 0 s then s :: positive_sizes l' else positive_sizes l'
  | None :: l' => positive_sizes l'
  end.

Definition body_font_sizes (innerHeight : Z) (d : Document) : list Q :=
  positive_sizes
    (map (fun el => JS.parseFloat (fontSize el))
         (filter (body_visible innerHeight)
                 (query_selector_all (SelTags ["p"; "span"; "li"]) d))).

(** [min(body_font_sizes) if body_font_sizes else None] *)
Definition min_font (body_font_sizes : list Q) : option Q :=
  match body_font_sizes with
  | [] => None
  | _ => Py.min body_font_sizes
  end.

(** [round(sum(body_font_sizes)/len(body_font_sizes), 1) if body_font_sizes
    else None] *)
Definition avg_font (body_font_sizes : list Q) : option Q :=
  match body_font_sizes with
  | [] => None
  | _ => Some (Py.round
                 (Double.div (Py.sum body_font_sizes)
                    (inject_Z (Z.of_nat (List.length body_font_sizes)))) 1)
  end.

(** The dict returned by [audit]. *)
Module Report.
Record t : Type := {
  url : string;
  viewport : string;
  cls_score : Q;
  headings : list Heading.t;
  small_tap_targets_count : nat;
  small_tap_targets_sample : list TapTarget.t;
  meta : Meta.t;
  structured_data_count : nat;
  structured_data : list string;
  images : list Image.t;
  images_missing_alt : list Image.t;
  fonts : list FontFace;
  min_above_fold_font_px : option Q;
  avg_above_fold_font_px : option Q
}.
End Report.

(** The return statement of [audit], on the values read from the page. *)
Definition report (url : string) (viewport_width viewport_height : Z)
  (d : Document) : Report.t :=
  let small_targets := small_targets d in
  let ld_json_blocks := ld_json_blocks d in
  let images := images d in
  {| Report.url := url;
     Report.viewport :=
       Py.str_int viewport_width ++ "x" ++ Py.str_int viewport_height;
     Report.cls_score := Py.round (cls_score d) 4;
     Report.headings := headings viewport_height d;
     Report.small_tap_targets_count := List.length small_targets;
     Report.small_tap_targets_sample := firstn 5 small_targets;
     Report.meta := meta d;
     Report.structured_data_count := List.length ld_json_blocks;
     Report.structured_data := ld_json_blocks;
     Report.images := images;
     Report.images_missing_alt :=
       filter (fun i => negb (Image.hasAlt i)) images;
     Report.fonts := font_faces d;
     Report.min_above_fold_font_px :=
       min_font (body_font_sizes viewport_height d);
     Report.avg_above_fold_font_px :=
       avg_font (body_font_sizes viewport_height d) |}.

End DeepSeoAudit.

(* ------------------------------------------------------------------ *)
(** ** capture_screenshot.py: the in-page snippets and the report *)

Module CaptureScreenshot.

Definition h1s (d : Document) : list string :=
  map (fun e => JS.trim (innerText e)) (query_selector_all (SelTags ["h1"]) d).

Definition h2s (d : Document) : list string :=
  map (fun e => JS.trim (innerText e)) (query_selector_all (SelTags ["h2"]) d).

Definition meta_description : Selector := SelAttr "meta" "name" "description".

(** [el => el ? el.getAttribute("content") : null] on the first match *)
Definition eval_content (d : Document) : option string :=
  match query_selector meta_description d with
  | Some el => getAttribute "content" el
  | None => None
  end.

(** [page.eval_on_selector(...) if page.query_selector(...) else None] *)
Definition meta_desc (d : Document) : option string :=
  match query_selector meta_description d with
  | Some _ => eval_content d
  | None => None
  end.

Definition cta_words : list string :=
  ["get"; "start"; "book"; "contact"; "try"; "demo"; "free"; "sign"; "request"].

Definition is_cta (el : Element) : bool :=
  let t := JS.toLowerCase (JS.trim (innerText el)) in
  existsb (JS.includes t) cta_words.

Definition cta_of (innerHeight : Z) (el : Element) : Cta.t :=
  let r := rect el in
  {| Cta.text := JS.trim (innerText el);
     Cta.tag := tagName el;
     Cta.top := JS.Math_round (top r);
     Cta.left := JS.Math_round (left r);
     Cta.width := JS.Math_round (width r);
     Cta.height := JS.Math_round (height r);
     Cta.visible := in_viewport innerHeight r |}.

Definition ctas (innerHeight : Z) (d : Document) : list Cta.t :=
  map (cta_of innerHeight)
      (firstn 8 (filter is_cta (query_selector_all (SelTags ["a"; "button"]) d))).

Definition has_h_scroll (d : Document) : bool :=
  (clientWidth d <? scrollWidth d)%Z.

(** The filter of the logo snippet.  [src] is the first of the three
    attributes that is present and not empty. *)
Definition is_logo (el : Element) : bool :=
  let src :=
    JS.toLowerCase
      (JS.or_empty
         (JS.or_else (getAttribute "src" el)
            (JS.or_else (getAttribute "alt" el) (getAttribute "aria-label" el)))) in
  orb (JS.includes src "logo") (orb (closest "header" el) (closest "nav" el)).

Definition logo_of (innerHeight : Z) (el : Element) : Logo.t :=
  let r := rect el in
  {| Logo.tag := tagName el;
     Logo.src := JS.or_default (getAttribute "src" el) "(svg)";
     Logo.visible := Qltb (top r) (inject_Z innerHeight) |}.

Definition logo_candidates (innerHeight : Z) (d : Document) : list Logo.t :=
  map (logo_of innerHeight)
      (firstn 3 (filter is_logo (query_selector_all (SelTags ["img"; "svg"]) d))).

(** The dict returned by [capture]. *)
Module Report.
Record t : Type := {
  title : string;
  h1s : list string;
  h2s : list string;
  meta_description : option string;
  ctas : list Cta.t;
  has_horizontal_scroll : bool;
  scroll_width : Z;
  client_width : Z;
  logo_candidates : list Logo.t
}.
End Report.

(** The return statement of [capture], on the values read from the page. *)
Definition report (viewport_height : Z) (d : Document) : Report.t :=
  {| Report.title := title d;
     Report.h1s := h1s d;
     Report.h2s := firstn 5 (h2s d);
     Report.meta_description := meta_desc d;
     Report.ctas := ctas viewport_height d;
     Report.has_horizontal_scroll := has_h_scroll d;
     Report.scroll_width := scrollWidth d;
     Report.client_width := clientWidth d;
     Report.logo_candidates := logo_candidates viewport_height d |}.

End CaptureScreenshot.

(* ------------------------------------------------------------------ *)
(** ** The browser-automation runtime

    What the scripts use of Playwright's synchronous API: the driver
    started by [sync_playwright()], the browser process launched through
    it, and calls on the page, each of which may raise.  The state that
    is threaded is the pair of processes and the files written. *)

Module Playwright.

Inductive Process : Type :=
| NotStarted
| Running
| Terminated.

Record World : Type := {
  driver : Process;
  browser : Process;
  files : list string
}.

(** Nothing started yet. *)
Definition boot : World :=
  {| driver := NotStarted; browser := NotStarted; files := [] |}.

(** The call sites. *)
Inductive Call : Type :=
| StartDriver
| Launch
| NewContext
| NewPage
| On
| Goto
| WaitForTimeout
| Title
| Evaluate (script : string)
| EvalOnSelectorAll (sel : Selector)
| EvalOnSelector (sel : Selector)
| QuerySelector (sel : Selector)
| GetAttribute (sel : Selector)
| Makedirs
| Screenshot
| Close.

Inductive Exn : Type :=
| PlaywrightError (c : Call)
| NavigationTimeout
| OSError.

(** What is outside the scripts: the page each URL renders to at a
    given viewport ([None]: navigation does not settle within the
    timeout), and the call sites at which the call raises: a failure of
    the engine, or an exception thrown inside the page by a snippet on
    an element the snippet functions above take for granted (a link
    inside an svg has no [innerText]). *)
Record Env : Type := {
  site : string -> Z -> Z -> option Document;
  faulty : Call -> bool
}.

Definition M (A : Type) : Type := World -> (Exn + A) * World.

Definition ret {A} (a : A) : M A := fun w => (inr a, w).

Definition raise {A} (e : Exn) : M A := fun w => (inl e, w).

Definition bind {A B} (m : M A) (k : A -> M B) : M B :=
  fun w =>
    match m w with
    | (inr a, w') => k a w'
    | (inl e, w') => (inl e, w')
    end.

Declare Scope pw_scope.
Delimit Scope pw_scope with pw.
Notation "x <- m ;; k" := (bind m (fun x => k))
  (at level 100, m at next level, right associativity) : pw_scope.
Notation "m ;; k" := (bind m (fun _ => k))
  (at level 100, right associativity) : pw_scope.

Definition modify (f : World -> World) : M unit := fun w => (inr tt, f w).

(** A call that yields [a] unless the engine fails there. *)
Definition call {A} (env : Env) (c : Call) (a : A) : M A :=
  if faulty env c then raise (PlaywrightError c) else ret a.

(** [p.chromium.launch(headless=True)] *)
Definition launch (env : Env) : M unit :=
  bind (call env Launch tt)
       (fun _ => modify (fun w => {| driver := driver w;
                                     browser := Running;
                                     files := files w |})).

(** [page.goto(url, wait_until='networkidle', timeout=60000)] *)
Definition goto (env : Env) (url : string) (vw vh : Z) : M Document :=
  bind (call env Goto tt)
       (fun _ => match site env url vw vh with
                 | Some d => ret d
                 | None => raise NavigationTimeout
                 end).

(** [browser.close()] *)
Definition close (env : Env) : M unit :=
  bind (call env Close tt)
       (fun _ => modify (fun w => {| driver := driver w;
                                     browser := Terminated;
                                     files := files w |})).

(** [os.makedirs(os.path.dirname(path), exist_ok=True)]: creating the
    empty directory name raises, as does a failure of the file system. *)
Definition makedirs (env : Env) (path : string) : M unit :=
  if orb (faulty env Makedirs) (negb (Py.has_dirname path))
  then raise OSError else ret tt.

(** [page.screenshot(path=...)] *)
Definition screenshot (env : Env) (path : string) : M unit :=
  bind (call env Screenshot tt)
       (fun _ => modify (fun w => {| driver := driver w;
                                     browser := browser w;
                                     files := path :: files w |})).

(** Leaving the [with sync_playwright()] block stops the driver; the
    driver ends the browser processes it launched that still run. *)
Definition stop (w : World) : World :=
  {| driver := Terminated;
     browser := match browser w with
                | Running => Terminated
                | s => s
                end;
     files := files w |}.

(** [with sync_playwright() as p: body].  The exit handler runs whether
    the body returns or raises, and does not swallow the exception. *)
Definition with_sync_playwright {A} (env : Env) (body : M A) : M A :=
  fun w =>
    match call env StartDriver tt w with
    | (inl e, w') => (inl e, w')
    | (inr _, w') =>
        let '(r, w'') :=
          body {| driver := Running; browser := browser w'; files := files w' |} in
        (r, stop w'')
    end.

End Playwright.

Import Playwright.
Open Scope pw_scope.

(** The local function [get_meta(selector, attr)] of [audit], with its
    two calls on the page. *)
Definition get_meta (env : Env) (d : Document) (selector : Selector)
  (attr : string) : M (option string) :=
  el <- call env (QuerySelector selector) (query_selector selector d) ;;
  match el with
  | Some el => call env (GetAttribute selector) (getAttribute attr el)
  | None => ret None
  end.

(** [audit(url, viewport_width, viewport_height)] of deep_seo_audit.py *)
Definition audit (env : Env) (url : string) (viewport_width viewport_height : Z)
  : M DeepSeoAudit.Report.t :=
  with_sync_playwright env (
    launch env ;;
    call env NewContext tt ;;
    call env NewPage tt ;;
    call env On tt ;;
    d <- goto env url viewport_width viewport_height ;;
    call env WaitForTimeout tt ;;
    cls_score <- call env (Evaluate "cls") (DeepSeoAudit.cls_score d) ;;
    headings <- call env (EvalOnSelectorAll (SelTags ["h1"; "h2"; "h3"; "h4"; "h5"; "h6"]))
                  (DeepSeoAudit.headings viewport_height d) ;;
    tap_targets <- call env (EvalOnSelectorAll (SelTags ["a"; "button"]))
                     (DeepSeoAudit.tap_targets d) ;;
    let small_targets := filter TapTarget.tooSmall tap_targets in
    let get_meta := get_meta env d in
    og_title <- get_meta (DeepSeoAudit.meta_property "og:title") "content" ;;
    og_desc <- get_meta (DeepSeoAudit.meta_property "og:description") "content" ;;
    og_image <- get_meta (DeepSeoAudit.meta_property "og:image") "content" ;;
    og_url <- get_meta (DeepSeoAudit.meta_property "og:url") "content" ;;
    tw_card <- get_meta (DeepSeoAudit.meta_name "twitter:card") "content" ;;
    tw_title <- get_meta (DeepSeoAudit.meta_name "twitter:title") "content" ;;
    canonical <- get_meta (SelAttr "link" "rel" "canonical") "href" ;;
    robots <- get_meta (DeepSeoAudit.meta_name "robots") "content" ;;
    viewport_m <- get_meta (DeepSeoAudit.meta_name "viewport") "content" ;;
    ld_json_blocks <- call env (EvalOnSelectorAll (SelAttr "script" "type" "application/ld+json"))
                        (DeepSeoAudit.ld_json_blocks d) ;;
    images <- call env (EvalOnSelectorAll (SelTags ["img"])) (DeepSeoAudit.images d) ;;
    font_faces <- call env (Evaluate "fonts") (DeepSeoAudit.font_faces d) ;;
    body_font_sizes <- call env (EvalOnSelectorAll (SelTags ["p"; "span"; "li"]))
                         (DeepSeoAudit.body_font_sizes viewport_height d) ;;
    let min_font := DeepSeoAudit.min_font body_font_sizes in
    let avg_font := DeepSeoAudit.avg_font body_font_sizes in
    close env ;;
    ret {| DeepSeoAudit.Report.url := url;
           DeepSeoAudit.Report.viewport :=
             Py.str_int viewport_width ++ "x" ++ Py.str_int viewport_height;
           DeepSeoAudit.Report.cls_score := Py.round cls_score 4;
           DeepSeoAudit.Report.headings := headings;
           DeepSeoAudit.Report.small_tap_targets_count := List.length small_targets;
           DeepSeoAudit.Report.small_tap_targets_sample := firstn 5 small_targets;
           DeepSeoAudit.Report.meta :=
             {| Meta.og_title := og_title;
                Meta.og_description := og_desc;
                Meta.og_image := og_image;
                Meta.og_url := og_url;
                Meta.twitter_card := tw_card;
                Meta.twitter_title := tw_title;
                Meta.canonical := canonical;
                Meta.robots := robots;
                Meta.viewport := viewport_m |};
           DeepSeoAudit.Report.structured_data_count := List.length ld_json_blocks;
           DeepSeoAudit.Report.structured_data := ld_json_blocks;
           DeepSeoAudit.Report.images := images;
           DeepSeoAudit.Report.images_missing_alt :=
             filter (fun i => negb (Image.hasAlt i)) images;
           DeepSeoAudit.Report.fonts := font_faces;
           DeepSeoAudit.Report.min_above_fold_font_px := min_font;
           DeepSeoAudit.Report.avg_above_fold_font_px := avg_font |}).

(** [capture(url, output_path, viewport_width, viewport_height, wait_ms)]
    of capture_screenshot.py *)
Definition capture (env : Env) (url output_path : string)
  (viewport_width viewport_height wait_ms : Z) : M CaptureScreenshot.Report.t :=
  with_sync_playwright env (
    launch env ;;
    call env NewContext tt ;;
    call env NewPage tt ;;
    d <- goto env url viewport_width viewport_height ;;
    call env WaitForTimeout tt ;;
    title <- call env Title (title d) ;;
    h1s <- call env (EvalOnSelectorAll (SelTags ["h1"])) (CaptureScreenshot.h1s d) ;;
    h2s <- call env (EvalOnSelectorAll (SelTags ["h2"])) (CaptureScreenshot.h2s d) ;;
    found <- call env (QuerySelector CaptureScreenshot.meta_description)
               (query_selector CaptureScreenshot.meta_description d) ;;
    meta_desc <- match found with
                 | Some _ => call env (EvalOnSelector CaptureScreenshot.meta_description)
                               (CaptureScreenshot.eval_content d)
                 | None => ret None
                 end ;;
    ctas <- call env (EvalOnSelectorAll (SelTags ["a"; "button"]))
              (CaptureScreenshot.ctas viewport_height d) ;;
    scroll_width <- call env (Evaluate "scrollWidth") (scrollWidth d) ;;
    client_width <- call env (Evaluate "clientWidth") (clientWidth d) ;;
    let has_h_scroll := (client_width <? scroll_width)%Z in
    logo_candidates <- call env (EvalOnSelectorAll (SelTags ["img"; "svg"]))
                         (CaptureScreenshot.logo_candidates viewport_height d) ;;
    makedirs env output_path ;;
    screenshot env output_path ;;
    close env ;;
    ret {| CaptureScreenshot.Report.title := title;
           CaptureScreenshot.Report.h1s := h1s;
           CaptureScreenshot.Report.h2s := firstn 5 h2s;
           CaptureScreenshot.Report.meta_description := meta_desc;
           CaptureScreenshot.Report.ctas := ctas;
           CaptureScreenshot.Report.has_horizontal_scroll := has_h_scroll;
           CaptureScreenshot.Report.scroll_width := scroll_width;
           CaptureScreenshot.Report.client_width := client_width;
           CaptureScreenshot.Report.logo_candidates := logo_candidates |}).

(* ------------------------------------------------------------------ *)
(** ** Notions used in the statements *)

(** A computation keeps [P] when every world it leaves, on return or on
    raise, satisfies [P] if the world it started from did. *)
Definition keeps (P : World -> Prop) {A} (m : M A) : Prop :=
  forall w, P w -> P (snd (m w)).

(** The browser process exists: it runs or it has been terminated. *)
Definition launched (w : World) : Prop :=
  browser w = Running \/ browser w = Terminated.

(** A string of white space only (the empty string included). *)
Fixpoint blank (s : string) : bool :=
  match s with
  | EmptyString => true
  | String c s' => andb (JS.is_space c) (blank s')
  end.

(** The elements the snippets select. *)
Definition links_and_buttons (d : Document) : list Element :=
  query_selector_all (SelTags ["a"; "button"]) d.


Definition imgs_and_svgs (d : Document) : list Element :=
  query_selector_all (SelTags ["img"; "svg"]) d.

(** The tap-target property read on the reported (rounded) fields. *)
Definition small_on_reported_fields (d : Document) : Prop :=
  (forall t, In t (DeepSeoAudit.small_targets d) ->
     In t (DeepSeoAudit.tap_targets d) /\
     (TapTarget.width t < 44 \/ TapTarget.height t < 44)%Z) /\
  (forall t, In t (DeepSeoAudit.tap_targets d) ->
     TapTarget.width t <> 0%Z /\ TapTarget.height t <> 0%Z).

(** An engine that never fails, serving one page at every URL. *)
Definition serving (d : Document) : Env :=
  {| site := fun _ _ _ => Some d; faulty := fun _ => false |}.

(** The outcome of [audit] and of [capture] on page [d] shown by such an
    engine in a viewport [vh] high. *)
Definition audited (d : Document) (vh : Z) : Exn + DeepSeoAudit.Report.t :=
  fst (audit (serving d) "https://closeclaw.in" 1440 vh boot).

Definition captured (d : Document) (vh : Z) : Exn + CaptureScreenshot.Report.t :=
  fst (capture (serving d) "https://closeclaw.in" "/tmp/screenshot.png"
         1440 vh 3000 boot).


(** The nine calls of [get_meta]: selector, attribute, field filled. *)
Definition meta_fields : list (Selector * string * (Meta.t -> option string)) :=
  [ (DeepSeoAudit.meta_property "og:title", "content", Meta.og_title);
    (DeepSeoAudit.meta_property "og:description", "content", Meta.og_description);
    (DeepSeoAudit.meta_property "og:image", "content", Meta.og_image);
    (DeepSeoAudit.meta_property "og:url", "content", Meta.og_url);
    (DeepSeoAudit.meta_name "twitter:card", "content", Meta.twitter_card);
    (DeepSeoAudit.meta_name "twitter:title", "content", Meta.twitter_title);
    (SelAttr "link" "rel" "canonical", "href", Meta.canonical);
    (DeepSeoAudit.meta_name "robots", "content", Meta.robots);
    (DeepSeoAudit.meta_name "viewport", "content", Meta.viewport) ].

(** The meta property as worded: a string when the selector matches,
    null when it does not. *)
Definition string_iff_selector_matches (d : Document) : Prop :=
  forall rep, audited d 900 = inr rep ->
  forall sel attr field, In (sel, attr, field) meta_fields ->
    (query_selector sel d <> None ->
     exists s, field (DeepSeoAudit.Report.meta rep) = Some s) /\
    (query_selector sel d = None ->
     field (DeepSeoAudit.Report.meta rep) = None).

(** The first of the named attributes that is present and not empty. *)
Fixpoint first_nonempty (names : list string) (el : Element) : option string :=
  match names with
  | [] => None
  | n :: names' =>
      match getAttribute n el with
      | Some (String c s) => Some (String c s)
      | _ => first_nonempty names' el
      end
  end.

Definition mentions_logo (a : option string) : bool :=
  JS.includes (JS.toLowerCase (JS.or_empty a)) "logo".

(** The logo condition following the words of the specification: inside
    a header or nav ancestor, or one of src, alt, aria-label mentions
    "logo". *)
Definition spec_logo_match (el : Element) : bool :=
  orb (orb (closest "header" el) (closest "nav" el))
      (orb (mentions_logo (getAttribute "src" el))
           (orb (mentions_logo (getAttribute "alt" el))
                (mentions_logo (getAttribute "aria-label" el)))).

(** The logo property as worded: every candidate is one of the first
    three elements meeting [spec_logo_match]. *)
Definition among_first_three_spec_matches (vh : Z) (d : Document) : Prop :=
  forall rep, captured d vh = inr rep ->
  forall l, In l (CaptureScreenshot.Report.logo_candidates rep) ->
    In l (map (CaptureScreenshot.logo_of vh)
              (firstn 3 (filter spec_logo_match (imgs_and_svgs d)))).

(** The values of the layout shifts that occurred on the page. *)
Definition layout_shifts (d : Document) : list Q :=
  match performance d with
  | PerfTimeline l => l
  | _ => []
  end.

(** The CLS property as worded: the reported score is the sum of the
    layout-shift values. *)
Definition cls_is_plain_sum (d : Document) : Prop :=
  forall rep, audited d 900 = inr rep ->
    DeepSeoAudit.Report.cls_score rep == Py.sum (layout_shifts d).

(** The visibility flag as worded: top below the viewport height and
    bottom above 0. *)
Definition logo_flags_in_viewport (vh : Z) (d : Document) : Prop :=
  forall rep, captured d vh = inr rep ->
    map Logo.visible (CaptureScreenshot.Report.logo_candidates rep) =
    map (fun el => in_viewport vh (rect el))
        (firstn 3 (filter CaptureScreenshot.is_logo (imgs_and_svgs d))).

(* ------------------------------------------------------------------ *)
(** ** Sample pages *)

Definition box (t l w h : Q) : DOMRect :=
  {| top := t; left := l; bottom := Qred (t + h); width := w; height := h |}.

Definition node (name tag : string) (attrs : list (string * string))
  (text : string) (r : DOMRect) (size : string) (anc : list string) : Element :=
  {| localName := name; tagName := tag; attributes := attrs;
     innerText := text; textContent := text; rect := r;
     fontSize := size; fontWeight := "400"; ancestors := anc |}.

Definition page (els : list Element) : Document :=
  {| title := "Fixture"; elements := els; performance := PerfTimeline [];
     fonts := []; scrollWidth := 1440; clientWidth := 1440 |}.

(** A link 43.6px wide and 50px high. *)
Definition page_narrow_link : Document :=
  page [node "a" "A" [("href", "/pricing")] "Pricing" (box 10 0 (436 # 10) 50)
          "16px" ["nav"; "body"; "html"]].




(** A meta element for og:title that carries no content attribute. *)
Definition page_bare_og_title : Document :=
  page [node "meta" "META" [("property", "og:title")] EmptyString (box 0 0 0 0)
          "16px" ["head"; "html"]].

(** Open Graph title and Twitter card with content, a canonical link
    whose rel is written with a capital, a robots meta element without
    content, and nothing else. *)
Definition page_meta_tags : Document :=
  page [node "meta" "META" [("property", "og:title"); ("content", "CloseClaw")]
          EmptyString (box 0 0 0 0) "16px" ["head"; "html"];
        node "meta" "META" [("name", "twitter:card"); ("content", "summary")]
          EmptyString (box 0 0 0 0) "16px" ["head"; "html"];
        node "link" "LINK" [("rel", "Canonical"); ("href", "https://closeclaw.in/")]
          EmptyString (box 0 0 0 0) "16px" ["head"; "html"];
        node "meta" "META" [("name", "robots")]
          EmptyString (box 0 0 0 0) "16px" ["head"; "html"]].

(** Four images outside header and nav.  The first says logo in its alt
    text only, the other three in their src. *)
Definition page_alt_logo : Document :=
  page [node "img" "IMG" [("src", "/img/brand.png"); ("alt", "Acme logo")] EmptyString
          (box 20 20 120 40) "16px" ["div"; "body"; "html"];
        node "img" "IMG" [("src", "/img/logo-a.png")] EmptyString
          (box 80 20 120 40) "16px" ["div"; "body"; "html"];
        node "img" "IMG" [("src", "/img/logo-b.png")] EmptyString
          (box 140 20 120 40) "16px" ["div"; "body"; "html"];
        node "img" "IMG" [("src", "/img/logo-c.png")] EmptyString
          (box 200 20 120 40) "16px" ["div"; "body"; "html"]].

(** A header image placed wholly above the viewport. *)
Definition page_logo_above_viewport : Document :=
  page [node "img" "IMG" [("src", "/logo.png")] EmptyString
          (box (-200) 0 120 50) "16px" ["header"; "body"; "html"]].

(** A page on which one layout shift of 0.25 occurred. *)
Definition page_quarter_shift : Document :=
  {| title := "Fixture"; elements := [];
     performance := PerfTimeline [1 # 4];
     fonts := []; scrollWidth := 1440; clientWidth := 1440 |}.

(** [n] first-level headings. *)
Definition page_h1s (n : nat) : Document :=
  page (repeat (node "h1" "H1" [] "Title" (box 0 0 600 40) "32px"
                     ["body"; "html"]) n).

(** Two images, one with an alt text of spaces only. *)
Definition page_two_images : Document :=
  page [node "img" "IMG" [("src", "/img/team.jpg"); ("alt", "Our team")] EmptyString
          (box 300 0 400 300) "16px" ["main"; "body"; "html"];
        node "img" "IMG" [("src", "/img/spacer.gif"); ("alt", "  ")] EmptyString
          (box 600 0 1 1) "16px" ["main"; "body"; "html"]].

(** Seven h2 elements after one h1. *)
Definition page_seven_h2 : Document :=
  page (node "h1" "H1" [] "Title" (box 0 0 600 40) "32px" ["body"; "html"]
        :: map (fun t => node "h2" "H2" [] t (box 100 0 600 30) "24px"
                              ["body"; "html"])
               ["One"; "Two"; "Three"; "Four"; "Five"; "Six"; "Seven"]).

(** Seven links 30px high. *)
Definition page_seven_links : Document :=
  page (map (fun t => node "a" "A" [("href", "#")] t (box 10 0 80 30) "16px"
                           ["nav"; "body"; "html"])
            ["One"; "Two"; "Three"; "Four"; "Five"; "Six"; "Seven"]).

(* ------------------------------------------------------------------ *)
(** ** Further notions: effects, call sites, a landing page *)


(** The call sites [audit] passes through on every run that returns
    (the [get_attribute] call of [get_meta] is made only for a selector
    that matches). *)
Definition audit_calls : list Call :=
  [ StartDriver; Launch; NewContext; NewPage; On; Goto; WaitForTimeout;
    Evaluate "cls";
    EvalOnSelectorAll (SelTags ["h1"; "h2"; "h3"; "h4"; "h5"; "h6"]);
    EvalOnSelectorAll (SelTags ["a"; "button"]);
    QuerySelector (DeepSeoAudit.meta_property "og:title");
    QuerySelector (DeepSeoAudit.meta_property "og:description");
    QuerySelector (DeepSeoAudit.meta_property "og:image");
    QuerySelector (DeepSeoAudit.meta_property "og:url");
    QuerySelector (DeepSeoAudit.meta_name "twitter:card");
    QuerySelector (DeepSeoAudit.meta_name "twitter:title");
    QuerySelector (SelAttr "link" "rel" "canonical");
    QuerySelector (DeepSeoAudit.meta_name "robots");
    QuerySelector (DeepSeoAudit.meta_name "viewport");
    EvalOnSelectorAll (SelAttr "script" "type" "application/ld+json");
    EvalOnSelectorAll (SelTags ["img"]);
    Evaluate "fonts";
    EvalOnSelectorAll (SelTags ["p"; "span"; "li"]);
    Close ].

(** The call sites [capture] passes through on every run that returns
    (the [eval_on_selector] call is made only when a description
    exists). *)
Definition capture_calls : list Call :=
  [ StartDriver; Launch; NewContext; NewPage; Goto; WaitForTimeout; Title;
    EvalOnSelectorAll (SelTags ["h1"]);
    EvalOnSelectorAll (SelTags ["h2"]);
    QuerySelector CaptureScreenshot.meta_description;
    EvalOnSelectorAll (SelTags ["a"; "button"]);
    Evaluate "scrollWidth";
    Evaluate "clientWidth";
    EvalOnSelectorAll (SelTags ["img"; "svg"]);
    Makedirs; Screenshot; Close ].

(** A landing page: description, two JSON-LD blocks (the type of the
    second written in capitals), a long second-level
    heading, ten call-to-action links after a plain one, an image with a
    long src, an inline svg in the header, a paragraph, twelve font
    faces, and content 1600 wide in a window 1440 wide. *)
Definition page_landing : Document :=
  {| title := "CloseClaw";
     elements :=
       [ node "meta" "META" [("name", "description"); ("content", "Close more deals")]
           EmptyString (box 0 0 0 0) "16px" ["head"; "html"];
         node "script" "SCRIPT" [("type", "application/ld+json")]
           "  { @type: Organization }
" (box 0 0 0 0) "16px" ["head"; "html"];
         node "script" "SCRIPT" [("type", "Application/LD+JSON")]
           "{ @type: WebSite }" (box 0 0 0 0) "16px" ["head"; "html"];
         node "svg" "svg" [("aria-label", "CloseClaw")] EmptyString
           (box 12 16 32 32) "16px" ["header"; "body"; "html"];
         node "h1" "H1" [] "  Close deals faster " (box (241 # 2) 0 900 64)
           "56px" ["main"; "body"; "html"];
         node "h2" "H2" []
           "Everything your revenue team needs to qualify, follow up and close, in one shared inbox"
           (box 1200 0 900 40) "32px" ["main"; "body"; "html"];
         node "a" "A" [("href", "/pricing")] "Pricing" (box 20 900 70 20)
           "16px" ["nav"; "header"; "body"; "html"] ]
       ++ map (fun t => node "a" "A" [("href", "/signup")] t (box 300 0 160 48)
                             "16px" ["main"; "body"; "html"])
              [ " Get Started "; "Book a demo"; "Contact sales"; "Try it";
                "Start free"; "Sign in"; "Request access"; "FREE trial";
                "Get the app"; "Book a call" ]
       ++ [ node "img" "IMG"
              [("src", "https://cdn.closeclaw.in/assets/images/marketing/hero-dashboard@2x.png");
               ("alt", "Dashboard")]
              EmptyString (box 400 0 (12005 # 10) 600) "16px" ["main"; "body"; "html"];
            node "img" "IMG" [] EmptyString (box 2000 0 16 16) "16px"
              ["footer"; "body"; "html"];
            node "p" "P" [] "One inbox for every lead." (box 200 0 600 24)
              "18px" ["main"; "body"; "html"] ];
     performance := PerfMissing;
     fonts := repeat {| family := "Inter"; status := "loaded" |} 12;
     scrollWidth := 1600;
     clientWidth := 1440 |}%list.

(** An engine on which navigation never settles. *)
Definition unreachable : Env :=
  {| site := fun _ _ _ => None; faulty := fun _ => false |}.

(** An engine serving [d] on which taking the screenshot fails. *)
Definition broken_screenshot (d : Document) : Env :=
  {| site := fun _ _ _ => Some d;
     faulty := fun c => match c with Screenshot => true | _ => false end |}.

(** An engine serving [d] on which the image query fails. *)
Definition broken_images (d : Document) : Env :=
  {| site := fun _ _ _ => Some d;
     faulty := fun c =>
       match c with
       | EvalOnSelectorAll (SelTags ["img"]) => true
       | _ => false
       end |}.

(* ------------------------------------------------------------------ *)
(** ** Running the entry points *)

Section Returns.

Variable env : Env.

Lemma bind_inr {A B} (m : M A) (k : A -> M B) (w w2 : World) (b : B) :
  bind m k w = (inr b, w2) ->
  exists a w1, m w = (inr a, w1) /\ k a w1 = (inr b, w2).
Proof.
  unfold bind. destruct (m w) as [[e|a] w1]; [discriminate|].
  intros H. exists a, w1. split; [reflexivity | exact H].
Qed.

Lemma call_inr {A} (c : Call) (a x : A) (w w1 : World) :
  call env c a w = (inr x, w1) -> x = a /\ w1 = w /\ faulty env c = false.
Proof.
  unfold call, raise, ret. destruct (faulty env c); [discriminate|].
  intros H. injection H as <- <-. repeat split.
Qed.

Lemma ret_inr {A} (a x : A) (w w1 : World) :
  ret a w = (inr x, w1) -> x = a /\ w1 = w.
Proof. unfold ret. intros H. injection H as <- <-. split; reflexivity. Qed.

Lemma goto_inr (url : string) (vw vh : Z) (w w1 : World) (d : Document) :
  goto env url vw vh w = (inr d, w1) -> site env url vw vh = Some d.
Proof.
  unfold goto. intros H. apply bind_inr in H. destruct H as (u & w0 & _ & H).
  destruct (site env url vw vh); [|discriminate].
  apply ret_inr in H. destruct H as [-> _]. reflexivity.
Qed.

Lemma call_ok {A} (c : Call) (a : A) :
  faulty env c = false -> call env c a = ret a.
Proof. unfold call. intros ->. reflexivity. Qed.

Lemma get_meta_inr (d : Document) (sel : Selector) (attr : string)
  (x : option string) (w w1 : World) :
  get_meta env d sel attr w = (inr x, w1) ->
  x = DeepSeoAudit.get_meta d sel attr /\ w1 = w.
Proof.
  unfold get_meta, DeepSeoAudit.get_meta. intros H.
  apply bind_inr in H. destruct H as (el & w0 & Hq & H).
  apply call_inr in Hq. destruct Hq as (-> & -> & _).
  destruct (query_selector sel d).
  - apply call_inr in H. destruct H as (-> & -> & _). split; reflexivity.
  - apply ret_inr in H. exact H.
Qed.

Ltac inv_run :=
  repeat match goal with
    | H : bind _ _ _ = (inr _, _) |- _ =>
        apply bind_inr in H; destruct H as (? & ? & ? & H)
    | H : call env _ _ _ = (inr _, _) |- _ =>
        apply call_inr in H; destruct H as (-> & -> & _)
    | H : get_meta env _ _ _ _ = (inr _, _) |- _ =>
        apply get_meta_inr in H; destruct H as (-> & ->)
    | H : ret _ _ = (inr _, _) |- _ =>
        apply ret_inr in H; destruct H as (-> & ->)
    end.

(** When [audit] returns a report, the page was reached and the report
    is the pure report of that page. *)
Lemma audit_returns (url : string) (vw vh : Z) (w : World)
  (rep : DeepSeoAudit.Report.t) :
  fst (audit env url vw vh w) = inr rep ->
  exists d, site env url vw vh = Some d /\ rep = DeepSeoAudit.report url vw vh d.
Proof.
  unfold audit, with_sync_playwright.
  destruct (call env StartDriver tt w) as [[e|u] w0]; [discriminate|].
  match goal with
  | |- context [let '(r, w'') := ?b ?x in _] => destruct (b x) as [r w1] eqn:Hb
  end.
  cbn [fst]. intros ->. cbv zeta in Hb.
  apply bind_inr in Hb; destruct Hb as (? & ? & _ & Hb).
  do 3 (apply bind_inr in Hb; destruct Hb as (? & ? & _ & Hb)).
  apply bind_inr in Hb; destruct Hb as (d & ? & Hd & Hb).
  apply goto_inr in Hd. exists d. split; [exact Hd|].
  apply bind_inr in Hb; destruct Hb as (? & ? & _ & Hb).
  inv_run. reflexivity.
Qed.

(** When [capture] returns a report, likewise. *)
Lemma capture_returns (url output_path : string) (vw vh wait_ms : Z)
  (w : World) (rep : CaptureScreenshot.Report.t) :
  fst (capture env url output_path vw vh wait_ms w) = inr rep ->
  exists d, site env url vw vh = Some d /\ rep = CaptureScreenshot.report vh d.
Proof.
  unfold capture, with_sync_playwright.
  destruct (call env StartDriver tt w) as [[e|u] w0]; [discriminate|].
  match goal with
  | |- context [let '(r, w'') := ?b ?x in _] => destruct (b x) as [r w1] eqn:Hb
  end.
  cbn [fst]. intros ->. cbv zeta in Hb.
  do 3 (apply bind_inr in Hb; destruct Hb as (? & ? & _ & Hb)).
  apply bind_inr in Hb; destruct Hb as (d & ? & Hd & Hb).
  apply goto_inr in Hd. exists d. split; [exact Hd|].
  do 4 (apply bind_inr in Hb; destruct Hb as (? & ? & ? & Hb)).
  apply bind_inr in Hb; destruct Hb as (found & ? & Hf & Hb).
  apply bind_inr in Hb; destruct Hb as (md & ? & Hm & Hb).
  inv_run.
  unfold CaptureScreenshot.report, CaptureScreenshot.has_h_scroll.
  replace md with (CaptureScreenshot.meta_desc d); [reflexivity|].
  unfold CaptureScreenshot.meta_desc.
  destruct (query_selector CaptureScreenshot.meta_description d); inv_run;
    reflexivity.
Qed.

Section NoFault.

Hypothesis healthy : forall c, faulty env c = false.

Lemma get_meta_ok (d : Document) (sel : Selector) (attr : string) (w : World) :
  get_meta env d sel attr w = (inr (DeepSeoAudit.get_meta d sel attr), w).
Proof.
  unfold get_meta, DeepSeoAudit.get_meta, call. rewrite !healthy.
  unfold bind, ret. destruct (query_selector sel d); reflexivity.
Qed.

(** With a healthy engine and a page that settles, [audit] returns the
    pure report and leaves both processes terminated. *)
Lemma audit_runs (url : string) (vw vh : Z) (w : World) (d : Document) :
  site env url vw vh = Some d ->
  audit env url vw vh w =
    (inr (DeepSeoAudit.report url vw vh d),
     {| driver := Terminated; browser := Terminated; files := files w |}).
Proof.
  intros Hd.
  unfold audit, with_sync_playwright, launch, goto, close, call.
  rewrite !healthy, Hd.
  cbv beta iota zeta delta [bind modify raise ret].
  rewrite !get_meta_ok. reflexivity.
Qed.

Lemma capture_runs (url output_path : string) (vw vh wait_ms : Z)
  (w : World) (d : Document) :
  site env url vw vh = Some d ->
  Py.has_dirname output_path = true ->
  capture env url output_path vw vh wait_ms w =
    (inr (CaptureScreenshot.report vh d),
     {| driver := Terminated; browser := Terminated;
        files := output_path :: files w |}).
Proof.
  intros Hd Hdir.
  unfold capture, with_sync_playwright, launch, goto, close, screenshot,
    makedirs, call.
  rewrite !healthy, Hd, Hdir.
  unfold CaptureScreenshot.report, CaptureScreenshot.meta_desc,
    CaptureScreenshot.has_h_scroll.
  unfold bind, ret, modify; cbn.
  destruct (query_selector CaptureScreenshot.meta_description d); reflexivity.
Qed.

End NoFault.

End Returns.

(* ------------------------------------------------------------------ *)
(** ** Teardown of the browser process *)

Section Teardown.

Variable env : Env.

Lemma keeps_bind (P : World -> Prop) {A B} (m : M A) (k : A -> M B) :
  keeps P m -> (forall a, keeps P (k a)) -> keeps P (bind m k).
Proof.
  intros Hm Hk w Hw. unfold bind. specialize (Hm w Hw).
  destruct (m w) as [[e|a] w1]; cbn [snd] in *.
  - exact Hm.
  - apply Hk, Hm.
Qed.

Lemma keeps_ret (P : World -> Prop) {A} (a : A) : keeps P (ret a).
Proof. intros w Hw. exact Hw. Qed.

Lemma keeps_raise (P : World -> Prop) {A} (e : Exn) : keeps P (@raise A e).
Proof. intros w Hw. exact Hw. Qed.

Lemma keeps_call (P : World -> Prop) {A} (c : Call) (a : A) :
  keeps P (call env c a).
Proof. unfold call. destruct (faulty env c); [apply keeps_raise | apply keeps_ret]. Qed.

Lemma keeps_goto (P : World -> Prop) (url : string) (vw vh : Z) :
  keeps P (goto env url vw vh).
Proof.
  unfold goto. apply keeps_bind; [apply keeps_call|]. intros _.
  destruct (site env url vw vh); [apply keeps_ret | apply keeps_raise].
Qed.

Lemma keeps_get_meta (P : World -> Prop) (d : Document) (sel : Selector)
  (attr : string) :
  keeps P (get_meta env d sel attr).
Proof.
  unfold get_meta. apply keeps_bind; [apply keeps_call|].
  intros [el|]; [apply keeps_call | apply keeps_ret].
Qed.

Lemma keeps_makedirs (P : World -> Prop) (path : string) :
  keeps P (makedirs env path).
Proof.
  unfold makedirs.
  destruct (orb _ _); [apply keeps_raise | apply keeps_ret].
Qed.

Lemma keeps_close : keeps launched (close env).
Proof.
  unfold close. apply keeps_bind; [apply keeps_call|]. intros _ w _.
  right. reflexivity.
Qed.

Lemma keeps_screenshot (path : string) : keeps launched (screenshot env path).
Proof.
  unfold screenshot. apply keeps_bind; [apply keeps_call|]. intros _ w Hw.
  exact Hw.
Qed.

Ltac keep :=
  repeat first
    [ apply keeps_call | apply keeps_goto | apply keeps_get_meta
    | apply keeps_makedirs
    | apply keeps_close | apply keeps_screenshot | apply keeps_ret
    | apply keeps_raise
    | apply keeps_bind; [| intros ?]
    | match goal with
      | |- keeps _ (match ?x with Some _ => _ | None => _ end) => destruct x
      | |- keeps _ (if ?b then _ else _) => destruct b
      end ].

(** What the block leaves behind when it was entered with no browser:
    none if the launch failed, a launched one otherwise. *)
Lemma launch_then {A} (rest : M A) (w : World) :
  browser w = NotStarted ->
  keeps launched rest ->
  let w' := snd (bind (launch env) (fun _ => rest) w) in
  if faulty env Launch then browser w' = NotStarted else launched w'.
Proof.
  intros Hw Hrest. unfold bind, launch, call, modify, raise, ret.
  destruct (faulty env Launch); cbn.
  - exact Hw.
  - apply Hrest. left. reflexivity.
Qed.

Lemma stop_browser (w : World) :
  browser (stop w) =
    match browser w with
    | NotStarted => NotStarted
    | _ => Terminated
    end.
Proof. unfold stop. cbn. destruct (browser w); reflexivity. Qed.

Lemma with_sync_playwright_browser {A} (rest : M A) :
  keeps launched rest ->
  browser
    (snd (with_sync_playwright env (bind (launch env) (fun _ => rest)) boot)) =
  if orb (faulty env StartDriver) (faulty env Launch)
  then NotStarted else Terminated.
Proof.
  intros Hrest. unfold with_sync_playwright, call, raise, ret.
  destruct (faulty env StartDriver); cbn [orb]; [reflexivity|].
  set (w0 := {| driver := Running; browser := browser boot; files := files boot |}).
  pose proof (launch_then rest w0 eq_refl Hrest) as H. cbv zeta in H.
  destruct (bind (launch env) (fun _ => rest) w0) as [r w1]. cbn [snd] in *.
  rewrite stop_browser.
  destruct (faulty env Launch).
  - rewrite H. reflexivity.
  - destruct H as [-> | ->]; reflexivity.
Qed.

(** C8. On every exit path of [audit] and of [capture], whether a report
    is returned, navigation fails or a call on the page raises, the
    browser process that was launched has been terminated by the time
    the call is left; no run leaves a browser running.  Started with no
    process, the browser ends terminated exactly when its launch
    succeeded. *)
Theorem browser_torn_down_on_every_exit (url output_path : string)
  (vw vh wait_ms : Z) :
  let wa := snd (audit env url vw vh boot) in
  let wc := snd (capture env url output_path vw vh wait_ms boot) in
  let expected :=
    if orb (faulty env StartDriver) (faulty env Launch)
    then NotStarted else Terminated in
  (browser wa = expected /\ browser wa <> Running) /\
  (browser wc = expected /\ browser wc <> Running).
Proof.
  cbv zeta.
  assert (Ha : browser (snd (audit env url vw vh boot)) =
               if orb (faulty env StartDriver) (faulty env Launch)
               then NotStarted else Terminated).
  { unfold audit. apply with_sync_playwright_browser. cbv zeta. keep. }
  assert (Hc : browser (snd (capture env url output_path vw vh wait_ms boot)) =
               if orb (faulty env StartDriver) (faulty env Launch)
               then NotStarted else Terminated).
  { unfold capture. apply with_sync_playwright_browser. cbv zeta. keep. }
  rewrite Ha, Hc.
  destruct (orb (faulty env StartDriver) (faulty env Launch));
    repeat split; discriminate.
Qed.

End Teardown.

(* ------------------------------------------------------------------ *)
(** ** Facts about the primitives *)

Section Primitives.

Lemma trimEnd_empty (s : string) :
  JS.trimEnd s = EmptyString <-> blank s = true.
Proof.
  induction s as [|c s IH]; cbn [JS.trimEnd blank].
  - tauto.
  - destruct (JS.trimEnd s) eqn:Et.
    + destruct (JS.is_space c); cbn [andb].
      * rewrite <- IH. tauto.
      * split; discriminate.
    + split; [discriminate|]. intros H.
      apply andb_true_iff in H. destruct H as [_ H].
      apply IH in H. discriminate.
Qed.

Lemma trimStart_blank (s : string) : blank (JS.trimStart s) = blank s.
Proof.
  induction s as [|c s IH]; cbn [JS.trimStart blank]; [reflexivity|].
  destruct (JS.is_space c) eqn:Ec; cbn [andb blank].
  - exact IH.
  - rewrite Ec. reflexivity.
Qed.

Lemma trim_empty (s : string) : JS.trim s = EmptyString <-> blank s = true.
Proof. unfold JS.trim. rewrite trimEnd_empty, trimStart_blank. tauto. Qed.

Lemma blank_false (s : string) :
  blank s = false <->
  exists c, In c (list_ascii_of_string s) /\ JS.is_space c = false.
Proof.
  induction s as [|c s IH]; cbn [blank list_ascii_of_string In].
  - split; [discriminate | intros (c & [] & _)].
  - rewrite andb_false_iff, IH. split.
    + intros [Hc | (c' & Hin & Hc')].
      * exists c. auto.
      * exists c'. auto.
    + intros (c' & [<- | Hin] & Hc'); [left; exact Hc' | right; exists c'; auto].
Qed.

Lemma length_zero (s : string) : String.length s = O <-> s = EmptyString.
Proof. destruct s; cbn; split; congruence. Qed.

End Primitives.

(* ------------------------------------------------------------------ *)
(** ** Lists with a bound *)

Section Bounded.

Context {A : Type}.

Lemma firstn_prefix (n : nat) (l : list A) :
  exists rest, l = (firstn n l ++ rest)%list.
Proof. exists (skipn n l). symmetry. apply firstn_skipn. Qed.

Lemma in_firstn (n : nat) (l : list A) (x : A) :
  In x (firstn n l) -> In x l.
Proof.
  revert l. induction n as [|n IH]; intros [|y l]; cbn [firstn In]; try tauto.
  intros [H | H]; [left; exact H | right; apply IH, H].
Qed.

Lemma firstn_length_min (n : nat) (l : list A) :
  List.length (firstn n l) = Nat.min n (List.length l).
Proof. apply length_firstn. Qed.

End Bounded.

(* ------------------------------------------------------------------ *)
(** ** Numbers *)

Section Numbers.

Lemma Qltb_lt (x y : Q) : Qltb x y = true <-> x < y.
Proof.
  unfold Qltb. rewrite negb_true_iff, <- not_true_iff_false, Qle_bool_iff.
  split; [apply Qnot_le_lt | apply Qlt_not_le].
Qed.

Lemma Qltb_ge (x y : Q) : Qltb x y = false <-> y <= x.
Proof.
  unfold Qltb. rewrite negb_false_iff. apply Qle_bool_iff.
Qed.

(** Rounding to the nearest integer never passes the next half. *)
Lemma Math_round_below (x : Q) (n : Z) :
  x < inject_Z n -> (JS.Math_round x <= n)%Z.
Proof.
  intros H. unfold JS.Math_round.
  assert (Hf : inject_Z (Qfloor (x + (1 # 2))) <= x + (1 # 2)) by apply Qfloor_le.
  assert (Hlt : inject_Z (Qfloor (x + (1 # 2))) < inject_Z (n + 1)).
  { rewrite inject_Z_plus. change (inject_Z 1) with 1. lra. }
  rewrite <- Zlt_Qlt in Hlt. lia.
Qed.

Lemma Math_round_zero (x : Q) : x == 0 -> JS.Math_round x = 0%Z.
Proof.
  intros H. unfold JS.Math_round.
  assert (E : x + (1 # 2) == 1 # 2) by (rewrite H; reflexivity).
  rewrite (Qfloor_comp _ _ E). reflexivity.
Qed.

Lemma round_half_even_near (y : Q) :
  y - (1 # 2) <= inject_Z (Py.round_half_even y) <= y + (1 # 2).
Proof.
  unfold Py.round_half_even.
  pose proof (Qfloor_le y) as Hlo.
  pose proof (Qlt_floor y) as Hhi.
  rewrite inject_Z_plus in Hhi. change (inject_Z 1) with 1 in Hhi.
  assert (Hup : inject_Z (Qfloor y + 1) == inject_Z (Qfloor y) + 1).
  { rewrite inject_Z_plus. reflexivity. }
  destruct (Qcompare (y - inject_Z (Qfloor y)) (1 # 2)) eqn:C.
  - apply Qeq_alt in C.
    destruct (Z.even (Qfloor y)); [|rewrite Hup]; lra.
  - apply Qlt_alt in C. lra.
  - apply Qgt_alt in C. rewrite Hup. lra.
Qed.

Lemma pow2_pos (e : Z) : 0 < Double.pow2 e.
Proof.
  unfold Double.pow2. destruct (0 <=? e)%Z eqn:E.
  - change 0 with (inject_Z 0). rewrite <- Zlt_Qlt.
    apply Z.pow_pos_nonneg; lia.
  - apply Qinv_lt_0_compat. change 0 with (inject_Z 0). rewrite <- Zlt_Qlt.
    apply Z.pow_pos_nonneg; lia.
Qed.

Lemma nearest_even_nonneg (y : Q) : 0 <= y -> (0 <= Double.nearest_even y)%Z.
Proof.
  intros H. unfold Double.nearest_even.
  assert (Hf : (0 <= Qfloor y)%Z).
  { change 0%Z with (Qfloor 0). apply Qfloor_resp_le. exact H. }
  destruct (Qcompare _ _); [destruct (Z.even _)| |]; lia.
Qed.

(** Rounding to a double keeps the sign of a number that is not
    negative. *)
Lemma rnd_nonneg (x : Q) : 0 <= x -> 0 <= Double.rnd x.
Proof.
  intros H. unfold Double.rnd. destruct (Qeq_bool x 0); [apply Qle_refl|].
  rewrite Qred_correct.
  set (e := Z.max (Double.ilog2 x - 52) (-1074)).
  pose proof (pow2_pos e) as Hp.
  apply Qmult_le_0_compat; [|apply Qlt_le_weak; exact Hp].
  change 0 with (inject_Z 0). rewrite <- Zle_Qle.
  apply nearest_even_nonneg. apply Qle_shift_div_l; [exact Hp|].
  rewrite Qmult_0_l. exact H.
Qed.

Lemma round_half_even_nonneg (y : Q) : 0 <= y -> (0 <= Py.round_half_even y)%Z.
Proof.
  intros H. unfold Py.round_half_even.
  assert (Hf : (0 <= Qfloor y)%Z).
  { change 0%Z with (Qfloor 0). apply Qfloor_resp_le. exact H. }
  destruct (Qcompare _ _); [destruct (Z.even _)| |]; lia.
Qed.

Lemma round_nonneg (x : Q) (n : nat) : 0 <= x -> 0 <= Py.round x n.
Proof.
  intros H. unfold Py.round. apply rnd_nonneg.
  set (s := inject_Z (10 ^ Z.of_nat n)).
  assert (Hs : 0 < s).
  { unfold s. change 0 with (inject_Z 0). rewrite <- Zlt_Qlt.
    apply Z.pow_pos_nonneg; lia. }
  assert (Hx : 0 <= x * s) by (apply Qmult_le_0_compat; lra).
  apply Qle_shift_div_l; [exact Hs|]. rewrite Qmult_0_l.
  change 0 with (inject_Z 0). rewrite <- Zle_Qle.
  apply round_half_even_nonneg. exact Hx.
Qed.

Lemma sum_from_nonneg (l : list Q) (acc : Q) :
  0 <= acc -> Forall (Qle 0) l -> 0 <= fold_left Double.add l acc.
Proof.
  intros Hacc Hl. revert acc Hacc.
  induction Hl as [|x l Hx _ IH]; intros acc Hacc; cbn [fold_left].
  - exact Hacc.
  - apply IH. unfold Double.add. apply rnd_nonneg. lra.
Qed.

Lemma sum_nonneg (l : list Q) : Forall (Qle 0) l -> 0 <= Py.sum l.
Proof. intros H. unfold Py.sum. apply sum_from_nonneg; [apply Qle_refl | exact H]. Qed.

Lemma div_nonneg (x y : Q) : 0 <= x -> 0 < y -> 0 <= Double.div x y.
Proof.
  intros Hx Hy. unfold Double.div. apply rnd_nonneg.
  apply Qle_shift_div_l; [exact Hy|]. rewrite Qmult_0_l. exact Hx.
Qed.


Lemma min_from_in (m : Q) (l : list Q) : In (Py.min_from m l) (m :: l).
Proof.
  revert m. induction l as [|x l IH]; intros m; cbn [Py.min_from].
  - left. reflexivity.
  - destruct (Qlt_le_dec x m).
    + right. apply IH.
    + destruct (IH m) as [H|H]; [left; exact H | right; right; exact H].
Qed.

End Numbers.

(* ------------------------------------------------------------------ *)
(** ** Images and the tap-target sample of the audit report *)

Section AuditReport.

Variables (env : Env) (url : string) (vw vh : Z) (w : World).
Variable rep : DeepSeoAudit.Report.t.
Hypothesis returned : fst (audit env url vw vh w) = inr rep.

(** C10. The report carries no field for the whole list of small tap
    targets: it has [small_tap_targets_count], the number of tap targets
    whose [tooSmall] is true, and [small_tap_targets_sample], a prefix of
    the list of those targets of length min(5, count), shorter than the
    list as soon as the count exceeds 5. *)
Theorem small_tap_targets_count_and_sample :
  exists d, site env url vw vh = Some d /\
    let small := filter TapTarget.tooSmall (DeepSeoAudit.tap_targets d) in
    let sample := DeepSeoAudit.Report.small_tap_targets_sample rep in
    let count := DeepSeoAudit.Report.small_tap_targets_count rep in
    count = List.length small /\
    (exists rest, small = (sample ++ rest)%list) /\
    List.length sample = Nat.min 5 count /\
    ((5 < count)%nat -> (List.length sample < List.length small)%nat).
Proof.
  destruct (audit_returns env url vw vh w rep returned) as (d & Hd & ->).
  exists d. split; [exact Hd|].
  unfold DeepSeoAudit.report, DeepSeoAudit.small_targets. cbv zeta.
  cbn [DeepSeoAudit.Report.small_tap_targets_count
       DeepSeoAudit.Report.small_tap_targets_sample].
  split; [reflexivity|]. split; [apply firstn_prefix|].
  split; [apply firstn_length_min|].
  rewrite firstn_length_min. intros H. lia.
Qed.

(** C6. [images_missing_alt] is exactly the images whose [hasAlt] is
    false, in the order of [images]; and for every image [hasAlt] is true
    exactly when its [alt] is not null and is not empty after trimming,
    that is when it holds a character that is not white space. *)
Theorem images_missing_alt_exact :
  DeepSeoAudit.Report.images_missing_alt rep =
    filter (fun i => negb (Image.hasAlt i)) (DeepSeoAudit.Report.images rep) /\
  (forall i, In i (DeepSeoAudit.Report.images_missing_alt rep) <->
             In i (DeepSeoAudit.Report.images rep) /\ Image.hasAlt i = false) /\
  (forall i, In i (DeepSeoAudit.Report.images rep) ->
     (Image.hasAlt i = true <->
      exists s, Image.alt i = Some s /\ JS.trim s <> EmptyString) /\
     (Image.hasAlt i = true <->
      exists s c, Image.alt i = Some s /\
                  In c (list_ascii_of_string s) /\ JS.is_space c = false)).
Proof.
  destruct (audit_returns env url vw vh w rep returned) as (d & _ & ->).
  unfold DeepSeoAudit.report. cbv zeta.
  cbn [DeepSeoAudit.Report.images DeepSeoAudit.Report.images_missing_alt].
  split; [reflexivity|]. split.
  - intros i. rewrite filter_In, negb_true_iff. tauto.
  - intros i Hi. unfold DeepSeoAudit.images in Hi.
    apply in_map_iff in Hi. destruct Hi as (el & <- & _).
    cbn [DeepSeoAudit.image_of Image.hasAlt Image.alt].
    assert (E : (0 <? String.length
                        (JS.trim (JS.or_empty (getAttribute "alt" el))))%nat = true
                <-> exists s, getAttribute "alt" el = Some s /\
                              JS.trim s <> EmptyString).
    { rewrite Nat.ltb_lt.
      destruct (getAttribute "alt" el) as [s|]; cbn [JS.or_empty].
      - split.
        + intros H. exists s. split; [reflexivity|].
          intros E. rewrite E in H. cbn in H. lia.
        + intros (s' & [= <-] & H).
          destruct (String.length (JS.trim s)) eqn:El; [|lia].
          apply length_zero in El. contradiction.
      - cbn. split; [lia | intros (s & [=] & _)]. }
    split; [exact E|]. rewrite E. split.
    + intros (s & Hs & Ht). apply (proj1 (not_iff_compat (trim_empty s))) in Ht.
      apply not_true_is_false, blank_false in Ht.
      destruct Ht as (c & Hc). exists s, c. tauto.
    + intros (s & c & Hs & Hc). exists s. split; [exact Hs|].
      intros Ht. apply trim_empty in Ht.
      assert (Hb : blank s = false) by (apply blank_false; exists c; exact Hc).
      congruence.
Qed.

End AuditReport.

Lemma small_tap_targets_count_and_sample_witness :
  exists rep,
    audited page_seven_links 900 = inr rep /\
    DeepSeoAudit.Report.small_tap_targets_count rep = 7%nat /\
    List.length (DeepSeoAudit.Report.small_tap_targets_sample rep) = 5%nat /\
    exists d, site (serving page_seven_links) "https://closeclaw.in" 1440 900
              = Some d /\
      let small := filter TapTarget.tooSmall (DeepSeoAudit.tap_targets d) in
      let sample := DeepSeoAudit.Report.small_tap_targets_sample rep in
      let count := DeepSeoAudit.Report.small_tap_targets_count rep in
      count = List.length small /\
      (exists rest, small = (sample ++ rest)%list) /\
      List.length sample = Nat.min 5 count /\
      ((5 < count)%nat -> (List.length sample < List.length small)%nat).
Proof.
  eexists. split; [reflexivity|]. split; [reflexivity|]. split; [reflexivity|].
  apply (small_tap_targets_count_and_sample (serving page_seven_links)
           "https://closeclaw.in" 1440 900 boot).
  reflexivity.
Defined.

Lemma images_missing_alt_exact_witness :
  exists rep,
    audited page_two_images 900 = inr rep /\
    map Image.hasAlt (DeepSeoAudit.Report.images rep) = [true; false] /\
    map Image.src (DeepSeoAudit.Report.images_missing_alt rep)
      = ["/img/spacer.gif"] /\
    DeepSeoAudit.Report.images_missing_alt rep =
      filter (fun i => negb (Image.hasAlt i)) (DeepSeoAudit.Report.images rep).
Proof.
  eexists. split; [reflexivity|]. split; [reflexivity|]. split; [reflexivity|].
  apply (images_missing_alt_exact (serving page_two_images)
           "https://closeclaw.in" 1440 900 boot).
  reflexivity.
Defined.

(* ------------------------------------------------------------------ *)
(** ** Tap targets *)

Section TapTargets.

Lemma tap_targets_in (d : Document) (t : TapTarget.t) :
  In t (DeepSeoAudit.tap_targets d) <->
  (exists el, In el (links_and_buttons d) /\ t = DeepSeoAudit.tap_target_of el) /\
  (0 < TapTarget.width t /\ 0 < TapTarget.height t)%Z.
Proof.
  unfold DeepSeoAudit.tap_targets, DeepSeoAudit.nonzero_area, links_and_buttons.
  rewrite filter_In, in_map_iff, andb_true_iff, !Z.ltb_lt.
  split.
  - intros [(el & <- & Hel) H]. split; [exists el; auto | exact H].
  - intros [(el & Hel & ->) H]. split; [exists el; auto | exact H].
Qed.

(** The link of [page_narrow_link] is reported 44 wide and 50 high, and
    flagged too small. *)
Lemma narrow_link_reported_44 : ~ small_on_reported_fields page_narrow_link.
Proof.
  intros [H _].
  specialize (H (DeepSeoAudit.tap_target_of
                   (node "a" "A" [("href", "/pricing")] "Pricing"
                         (box 10 0 (436 # 10) 50) "16px" ["nav"; "body"; "html"]))).
  destruct H as [_ [H | H]].
  - left. reflexivity.
  - vm_compute in H. discriminate.
  - vm_compute in H. discriminate.
Qed.

(** C1, amended.  Every small tap target is a tap target, was measured
    less than 44 wide or less than 44 high before rounding, and is
    therefore reported at most 44 wide or at most 44 high; every tap
    target is reported with positive width and height, so an element
    whose width or height is zero is never among them. *)
Theorem small_targets_measured_below_44 (d : Document) :
  (forall t, In t (DeepSeoAudit.small_targets d) ->
     In t (DeepSeoAudit.tap_targets d) /\
     TapTarget.tooSmall t = true /\
     (TapTarget.width t <= 44 \/ TapTarget.height t <= 44)%Z /\
     exists el, In el (links_and_buttons d) /\
                t = DeepSeoAudit.tap_target_of el /\
                (width (rect el) < 44 \/ height (rect el) < 44)) /\
  (forall t, In t (DeepSeoAudit.tap_targets d) ->
     (0 < TapTarget.width t /\ 0 < TapTarget.height t)%Z) /\
  (forall el, In el (links_and_buttons d) ->
     width (rect el) == 0 \/ height (rect el) == 0 ->
     ~ In (DeepSeoAudit.tap_target_of el) (DeepSeoAudit.tap_targets d)).
Proof.
  split; [|split].
  - intros t Ht. unfold DeepSeoAudit.small_targets in Ht.
    apply filter_In in Ht. destruct Ht as [Hin Hsmall].
    split; [exact Hin|]. split; [exact Hsmall|].
    apply tap_targets_in in Hin. destruct Hin as [(el & Hel & ->) _].
    cbn [DeepSeoAudit.tap_target_of TapTarget.tooSmall TapTarget.width
         TapTarget.height] in *.
    apply orb_true_iff in Hsmall. rewrite !Qltb_lt in Hsmall.
    split.
    + destruct Hsmall as [H | H]; [left | right];
        apply (Math_round_below _ 44); exact H.
    + exists el. repeat split; [exact Hel | exact Hsmall].
  - intros t Ht. apply tap_targets_in in Ht. tauto.
  - intros el _ Hz Hin. apply tap_targets_in in Hin.
    destruct Hin as [_ [Hw Hh]].
    cbn [DeepSeoAudit.tap_target_of TapTarget.width TapTarget.height] in *.
    destruct Hz as [Hz | Hz]; apply Math_round_zero in Hz; lia.
Qed.

End TapTargets.

(* ------------------------------------------------------------------ *)
(** ** Above-the-fold font sizes *)

Section FontSizes.








End FontSizes.

(* ------------------------------------------------------------------ *)
(** ** Above-the-fold and visibility flags *)

Section Flags.

Variable vh : Z.

Lemma in_viewport_iff (r : DOMRect) :
  in_viewport vh r = true <-> top r < inject_Z vh /\ 0 < bottom r.
Proof. unfold in_viewport. rewrite andb_true_iff, !Qltb_lt. tauto. Qed.

(** Every heading carries the flag of the element it was read from:
    top below the viewport height and bottom above 0. *)
Lemma heading_aboveFold (d : Document) (h : Heading.t) :
  In h (DeepSeoAudit.headings vh d) ->
  exists el, In el (elements d) /\ h = DeepSeoAudit.heading_of vh el /\
    (Heading.aboveFold h = true <->
     top (rect el) < inject_Z vh /\ 0 < bottom (rect el)).
Proof.
  unfold DeepSeoAudit.headings, query_selector_all. intros H.
  apply in_map_iff in H. destruct H as (el & <- & Hel).
  apply filter_In in Hel. exists el. split; [tauto|]. split; [reflexivity|].
  apply in_viewport_iff.
Qed.

(** Every CTA candidate likewise. *)
Lemma cta_visible (d : Document) (c : Cta.t) :
  In c (CaptureScreenshot.ctas vh d) ->
  exists el, In el (elements d) /\ c = CaptureScreenshot.cta_of vh el /\
    (Cta.visible c = true <->
     top (rect el) < inject_Z vh /\ 0 < bottom (rect el)).
Proof.
  unfold CaptureScreenshot.ctas, query_selector_all. intros H.
  apply in_map_iff in H. destruct H as (el & <- & Hel).
  apply in_firstn, filter_In in Hel. destruct Hel as [Hel _].
  apply filter_In in Hel. exists el. split; [tauto|]. split; [reflexivity|].
  apply in_viewport_iff.
Qed.

(** A logo candidate is flagged visible as soon as its top is below the
    viewport height; its bottom is not consulted. *)
Lemma logo_visible (d : Document) (l : Logo.t) :
  In l (CaptureScreenshot.logo_candidates vh d) ->
  exists el, In el (elements d) /\ l = CaptureScreenshot.logo_of vh el /\
    (Logo.visible l = true <-> top (rect el) < inject_Z vh).
Proof.
  unfold CaptureScreenshot.logo_candidates, query_selector_all. intros H.
  apply in_map_iff in H. destruct H as (el & <- & Hel).
  apply in_firstn, filter_In in Hel. destruct Hel as [Hel _].
  apply filter_In in Hel. exists el. split; [tauto|]. split; [reflexivity|].
  apply Qltb_lt.
Qed.

End Flags.

(** C3, at the failing input.  The header image of
    [page_logo_above_viewport] spans -200..-150, wholly above a viewport
    1080 high: [capture] reports it with [visible] true, whereas top
    below the viewport height and bottom above 0 gives false. *)
Theorem logo_visible_ignores_bottom :
  (exists rep,
     captured page_logo_above_viewport 1080 = inr rep /\
     map Logo.visible (CaptureScreenshot.Report.logo_candidates rep) = [true]) /\
  map (fun el => in_viewport 1080 (rect el))
      (imgs_and_svgs page_logo_above_viewport) = [false] /\
  ~ logo_flags_in_viewport 1080 page_logo_above_viewport.
Proof.
  split; [eexists; split; reflexivity|]. split; [reflexivity|].
  intros H. specialize (H _ eq_refl). vm_compute in H. discriminate.
Qed.

(* ------------------------------------------------------------------ *)
(** ** Meta tags *)

Section MetaTags.

Lemma get_meta_some (d : Document) (sel : Selector) (attr s : string) :
  DeepSeoAudit.get_meta d sel attr = Some s <->
  exists el, query_selector sel d = Some el /\ getAttribute attr el = Some s.
Proof.
  unfold DeepSeoAudit.get_meta. destruct (query_selector sel d) as [el|].
  - split.
    + intros H. exists el. split; [reflexivity | exact H].
    + intros (el' & [= <-] & H). exact H.
  - split; [discriminate | intros (el & [=] & _)].
Qed.

Lemma get_meta_none (d : Document) (sel : Selector) (attr : string) :
  DeepSeoAudit.get_meta d sel attr = None <->
  query_selector sel d = None \/
  exists el, query_selector sel d = Some el /\ getAttribute attr el = None.
Proof.
  unfold DeepSeoAudit.get_meta. destruct (query_selector sel d) as [el|].
  - split.
    + intros H. right. exists el. split; [reflexivity | exact H].
    + intros [[=] | (el' & [= <-] & H)]. exact H.
  - split; [intros _; left; reflexivity | reflexivity].
Qed.

(** Each field of the meta block is [get_meta] at its selector and
    attribute. *)
Lemma meta_field (d : Document) (sel : Selector) (attr : string)
  (field : Meta.t -> option string) :
  In (sel, attr, field) meta_fields ->
  field (DeepSeoAudit.meta d) = DeepSeoAudit.get_meta d sel attr.
Proof.
  unfold meta_fields. cbn [In]. intros H.
  repeat (destruct H as [[= <- <- <-] | H]; [reflexivity|]).
  contradiction.
Qed.

(** The og:title element of [page_bare_og_title] matches its selector
    and has no content attribute: the field is null. *)
Lemma bare_og_title_is_null : ~ string_iff_selector_matches page_bare_og_title.
Proof.
  intros H. specialize (H _ eq_refl).
  destruct (H (DeepSeoAudit.meta_property "og:title") "content" Meta.og_title)
    as [H1 _]; [left; reflexivity|].
  destruct H1 as [s Hs]; [vm_compute; discriminate|].
  vm_compute in Hs. discriminate.
Qed.

(** C4, amended.  In the report returned by [audit], each of the nine
    meta fields is the value of the content (href for canonical)
    attribute of the first element matching its selector when that
    element carries the attribute, and null otherwise: when nothing
    matches, or when the first match lacks the attribute.  An absent
    selector does not raise: when the query itself does not fail and
    nothing matches, [get_meta] returns null and makes no further
    call. *)
Theorem meta_fields_string_or_null (env : Env) (url : string) (vw vh : Z)
  (w : World) (rep : DeepSeoAudit.Report.t) :
  fst (audit env url vw vh w) = inr rep ->
  (exists d, site env url vw vh = Some d /\
     forall sel attr field, In (sel, attr, field) meta_fields ->
       let v := field (DeepSeoAudit.Report.meta rep) in
       (forall s, v = Some s <->
          exists el, query_selector sel d = Some el /\
                     getAttribute attr el = Some s) /\
       (v = None <->
          query_selector sel d = None \/
          exists el, query_selector sel d = Some el /\
                     getAttribute attr el = None) /\
       (query_selector sel d = None -> v = None)) /\
  (forall d sel attr w',
     faulty env (QuerySelector sel) = false ->
     query_selector sel d = None ->
     get_meta env d sel attr w' = (inr None, w')).
Proof.
  intros Hret. split.
  - destruct (audit_returns env url vw vh w rep Hret) as (d & Hd & ->).
    exists d. split; [exact Hd|].
    intros sel attr field Hin. cbv zeta.
    change (DeepSeoAudit.Report.meta (DeepSeoAudit.report url vw vh d))
      with (DeepSeoAudit.meta d).
    rewrite (meta_field d sel attr field Hin).
    split; [intros s; apply get_meta_some|].
    split; [apply get_meta_none|].
    intros H. apply get_meta_none. left. exact H.
  - intros d sel attr w' Hf Hq.
    unfold get_meta, call. rewrite Hf. unfold bind, ret. rewrite Hq.
    reflexivity.
Qed.

Lemma meta_fields_string_or_null_witness :
  exists rep,
    audited page_meta_tags 900 = inr rep /\
    Meta.og_title (DeepSeoAudit.Report.meta rep) = Some "CloseClaw" /\
    Meta.twitter_card (DeepSeoAudit.Report.meta rep) = Some "summary" /\
    Meta.canonical (DeepSeoAudit.Report.meta rep)
      = Some "https://closeclaw.in/" /\
    Meta.robots (DeepSeoAudit.Report.meta rep) = None /\
    Meta.og_image (DeepSeoAudit.Report.meta rep) = None /\
    exists d, site (serving page_meta_tags) "https://closeclaw.in" 1440 900
              = Some d /\
      forall sel attr field, In (sel, attr, field) meta_fields ->
        query_selector sel d = None ->
        field (DeepSeoAudit.Report.meta rep) = None.
Proof.
  eexists. split; [reflexivity|].
  do 5 (split; [reflexivity|]).
  destruct (meta_fields_string_or_null (serving page_meta_tags)
              "https://closeclaw.in" 1440 900 boot _ eq_refl)
    as [(d & Hd & H) _].
  exists d. split; [exact Hd|].
  intros sel attr field Hin. apply (H sel attr field Hin).
Defined.

End MetaTags.

(* ------------------------------------------------------------------ *)
(** ** Logo candidates *)

Section Logos.

Lemma first_nonempty_from (names : list string) (el : Element) (s : string) :
  first_nonempty names el = Some s ->
  s <> EmptyString /\ exists n, In n names /\ getAttribute n el = Some s.
Proof.
  induction names as [|n names IH]; cbn [first_nonempty]; [discriminate|].
  destruct (getAttribute n el) as [[|c t]|] eqn:E.
  - intros H. destruct (IH H) as (Hs & n' & Hn & Hg).
    split; [exact Hs|]. exists n'. split; [right; exact Hn | exact Hg].
  - intros [= <-]. split; [discriminate|]. exists n. split; [left; reflexivity | exact E].
  - intros H. destruct (IH H) as (Hs & n' & Hn & Hg).
    split; [exact Hs|]. exists n'. split; [right; exact Hn | exact Hg].
Qed.

(** The chain [src || alt || aria-label || EMPTY] of the snippet. *)
Lemma chain_first_nonempty (el : Element) :
  JS.or_empty
    (JS.or_else (getAttribute "src" el)
       (JS.or_else (getAttribute "alt" el) (getAttribute "aria-label" el))) =
  JS.or_empty (first_nonempty ["src"; "alt"; "aria-label"] el).
Proof.
  cbn [first_nonempty].
  destruct (getAttribute "src" el) as [[|? ?]|];
    destruct (getAttribute "alt" el) as [[|? ?]|];
    destruct (getAttribute "aria-label" el) as [[|? ?]|]; reflexivity.
Qed.

Lemma is_logo_iff (el : Element) :
  CaptureScreenshot.is_logo el = true <->
  closest "header" el = true \/ closest "nav" el = true \/
  exists s, first_nonempty ["src"; "alt"; "aria-label"] el = Some s /\
            JS.includes (JS.toLowerCase s) "logo" = true.
Proof.
  unfold CaptureScreenshot.is_logo. cbv zeta. rewrite chain_first_nonempty.
  rewrite !orb_true_iff.
  destruct (first_nonempty ["src"; "alt"; "aria-label"] el) as [s|];
    cbn [JS.or_empty].
  - split.
    + intros [H | [H | H]]; [right; right; exists s; auto | auto | auto].
    + intros [H | [H | (s' & [= <-] & H)]]; auto.
  - split.
    + intros [H | [H | H]]; [discriminate H | auto | auto].
    + intros [H | [H | (s' & [=] & _)]]; auto.
Qed.

Lemma is_logo_spec (el : Element) :
  CaptureScreenshot.is_logo el = true -> spec_logo_match el = true.
Proof.
  rewrite is_logo_iff. unfold spec_logo_match, mentions_logo.
  rewrite !orb_true_iff.
  intros [H | [H | (s & Hs & Hl)]]; [tauto | tauto |].
  apply first_nonempty_from in Hs. destruct Hs as (_ & n & Hn & Hg).
  cbn [In] in Hn.
  destruct Hn as [<- | [<- | [<- | []]]]; rewrite Hg; cbn [JS.or_empty]; tauto.
Qed.

(** The first image of [page_alt_logo] says logo in its alt text only,
    behind a non-empty src: the words of the specification count it as
    the first match, [capture] skips it and reports the fourth image,
    which is not among the first three matches. *)
Lemma alt_logo_behind_src_not_selected :
  ~ among_first_three_spec_matches 1080 page_alt_logo.
Proof.
  intros H. specialize (H _ eq_refl).
  specialize (H {| Logo.tag := "IMG"; Logo.src := "/img/logo-c.png";
                   Logo.visible := true |}).
  vm_compute in H.
  destruct H as [H | [H | [H | []]]];
    [right; right; left; reflexivity | discriminate H ..].
Qed.

(** C5, amended.  [logo_candidates] in the report of [capture] holds, in
    document order, the first three (or all, when fewer) img/svg
    elements that lie inside a header or nav ancestor or whose first
    present and non-empty attribute among src, alt, aria-label, in that
    order, contains "logo" whatever the case; each of them meets the
    condition of the specification. *)
Theorem logo_candidates_first_three (env : Env) (url output_path : string)
  (vw vh wait_ms : Z) (w : World) (rep : CaptureScreenshot.Report.t) :
  fst (capture env url output_path vw vh wait_ms w) = inr rep ->
  exists d, site env url vw vh = Some d /\
    let matching := filter CaptureScreenshot.is_logo (imgs_and_svgs d) in
    let candidates := CaptureScreenshot.Report.logo_candidates rep in
    candidates = map (CaptureScreenshot.logo_of vh) (firstn 3 matching) /\
    List.length candidates = Nat.min 3 (List.length matching) /\
    (forall el, In el matching <->
       In el (imgs_and_svgs d) /\
       (closest "header" el = true \/ closest "nav" el = true \/
        exists s, first_nonempty ["src"; "alt"; "aria-label"] el = Some s /\
                  JS.includes (JS.toLowerCase s) "logo" = true)) /\
    (forall el, In el (firstn 3 matching) ->
       In el (imgs_and_svgs d) /\ spec_logo_match el = true).
Proof.
  intros Hret.
  destruct (capture_returns env url output_path vw vh wait_ms w rep Hret)
    as (d & Hd & ->).
  exists d. split; [exact Hd|]. cbv zeta.
  change (CaptureScreenshot.Report.logo_candidates (CaptureScreenshot.report vh d))
    with (map (CaptureScreenshot.logo_of vh)
              (firstn 3 (filter CaptureScreenshot.is_logo (imgs_and_svgs d)))).
  split; [reflexivity|]. split; [|split].
  - rewrite length_map. apply firstn_length_min.
  - intros el. rewrite filter_In, is_logo_iff. tauto.
  - intros el Hel. apply in_firstn, filter_In in Hel.
    destruct Hel as [Hel Hl]. split; [exact Hel | apply is_logo_spec, Hl].
Qed.

Lemma logo_candidates_first_three_witness :
  exists rep,
    captured page_alt_logo 1080 = inr rep /\
    map Logo.src (CaptureScreenshot.Report.logo_candidates rep)
      = ["/img/logo-a.png"; "/img/logo-b.png"; "/img/logo-c.png"] /\
    exists d, site (serving page_alt_logo) "https://closeclaw.in" 1440 1080
              = Some d /\
      CaptureScreenshot.Report.logo_candidates rep =
        map (CaptureScreenshot.logo_of 1080)
            (firstn 3 (filter CaptureScreenshot.is_logo (imgs_and_svgs d))).
Proof.
  eexists. split; [reflexivity|]. split; [reflexivity|].
  destruct (logo_candidates_first_three (serving page_alt_logo)
              "https://closeclaw.in" "/tmp/screenshot.png" 1440 1080 3000 boot
              _ eq_refl)
    as (d & Hd & H & _).
  exists d. split; [exact Hd | exact H].
Defined.

End Logos.

(* ------------------------------------------------------------------ *)
(** ** Cumulative layout shift *)

Section LayoutShift.

(** The snippet finds no layout-shift entry in the timeline, or fails to
    query it: its result is 0 on every page. *)
Lemma cls_score_zero (d : Document) : DeepSeoAudit.cls_score d = 0.
Proof.
  unfold DeepSeoAudit.cls_score, getEntriesByType.
  destruct (performance d); reflexivity.
Qed.

Lemma reported_cls_score_zero (env : Env) (url : string) (vw vh : Z)
  (w : World) (rep : DeepSeoAudit.Report.t) :
  fst (audit env url vw vh w) = inr rep ->
  DeepSeoAudit.Report.cls_score rep = 0.
Proof.
  intros Hret.
  destruct (audit_returns env url vw vh w rep Hret) as (d & _ & ->).
  change (DeepSeoAudit.Report.cls_score (DeepSeoAudit.report url vw vh d))
    with (Py.round (DeepSeoAudit.cls_score d) 4).
  rewrite cls_score_zero. reflexivity.
Qed.

(** C7, at the failing input.  On [page_quarter_shift] one layout shift
    of 0.25 occurred; [audit] returns a report whose [cls_score] is 0,
    not the sum 0.25 of the layout-shift values.  The same holds of
    every page: the query of the timeline yields no layout-shift entry,
    so every returned report has [cls_score] 0. *)
Theorem cls_score_ignores_layout_shifts :
  (exists rep,
     audited page_quarter_shift 900 = inr rep /\
     DeepSeoAudit.Report.cls_score rep = 0 /\
     Py.sum (layout_shifts page_quarter_shift) = 1 # 4) /\
  ~ cls_is_plain_sum page_quarter_shift /\
  (forall env url vw vh w rep,
     fst (audit env url vw vh w) = inr rep ->
     DeepSeoAudit.Report.cls_score rep = 0).
Proof.
  split; [|split].
  - destruct (audited page_quarter_shift 900) as [e|rep] eqn:E;
      [vm_compute in E; discriminate E|].
    exists rep. split; [reflexivity|].
    split; [exact (reported_cls_score_zero _ _ _ _ _ _ E)|].
    vm_compute. reflexivity.
  - intros H. unfold cls_is_plain_sum in H.
    destruct (audited page_quarter_shift 900) as [e|rep] eqn:E;
      [vm_compute in E; discriminate E|].
    specialize (H rep eq_refl).
    rewrite (reported_cls_score_zero _ _ _ _ _ _ E) in H.
    vm_compute in H. discriminate H.
  - exact reported_cls_score_zero.
Qed.

End LayoutShift.

(* ------------------------------------------------------------------ *)
(** ** Headings of the capture report *)

Section CaptureHeadings.

Lemma repeat_filter_true {A} (f : A -> bool) (x : A) (n : nat) :
  f x = true -> filter f (repeat x n) = repeat x n.
Proof.
  intros H. induction n as [|n IH]; cbn [repeat filter]; [reflexivity|].
  rewrite H, IH. reflexivity.
Qed.

(** A page of [n] h1 elements is reported with [n] entries in [h1s]. *)
Lemma h1s_of_page_h1s (vh : Z) (n : nat) :
  exists rep, captured (page_h1s n) vh = inr rep /\
              List.length (CaptureScreenshot.Report.h1s rep) = n.
Proof.
  exists (CaptureScreenshot.report vh (page_h1s n)). split.
  - unfold captured.
    rewrite (capture_runs (serving (page_h1s n)) (fun _ => eq_refl)
               "https://closeclaw.in" "/tmp/screenshot.png" 1440 vh 3000 boot
               (page_h1s n) eq_refl eq_refl).
    reflexivity.
  - unfold CaptureScreenshot.report. cbn [CaptureScreenshot.Report.h1s].
    unfold CaptureScreenshot.h1s. rewrite length_map.
    unfold query_selector_all, page_h1s, page. cbn [elements].
    rewrite repeat_filter_true by reflexivity. apply repeat_length.
Qed.

(** C9. [h2s] in the report of [capture] is the trimmed text of the
    first five h2 elements in document order: it has min(5, number of
    h2 elements) entries, never more than 5, also when the page has more
    h2 elements.  [h1s] has one entry for every h1 element, whatever
    their number. *)
Theorem h2s_first_five_h1s_all (env : Env) (url output_path : string)
  (vw vh wait_ms : Z) (w : World) (rep : CaptureScreenshot.Report.t) :
  fst (capture env url output_path vw vh wait_ms w) = inr rep ->
  exists d, site env url vw vh = Some d /\
    let text_of := fun e => JS.trim (innerText e) in
    let h1_elements := query_selector_all (SelTags ["h1"]) d in
    let h2_elements := query_selector_all (SelTags ["h2"]) d in
    CaptureScreenshot.Report.h2s rep = firstn 5 (map text_of h2_elements) /\
    List.length (CaptureScreenshot.Report.h2s rep) =
      Nat.min 5 (List.length h2_elements) /\
    (List.length (CaptureScreenshot.Report.h2s rep) <= 5)%nat /\
    CaptureScreenshot.Report.h1s rep = map text_of h1_elements /\
    List.length (CaptureScreenshot.Report.h1s rep) = List.length h1_elements /\
    (forall n, exists rep', captured (page_h1s n) vh = inr rep' /\
                 List.length (CaptureScreenshot.Report.h1s rep') = n).
Proof.
  intros Hret.
  destruct (capture_returns env url output_path vw vh wait_ms w rep Hret)
    as (d & Hd & ->).
  exists d. split; [exact Hd|]. cbv zeta.
  change (CaptureScreenshot.Report.h2s (CaptureScreenshot.report vh d))
    with (firstn 5 (CaptureScreenshot.h2s d)).
  change (CaptureScreenshot.Report.h1s (CaptureScreenshot.report vh d))
    with (CaptureScreenshot.h1s d).
  unfold CaptureScreenshot.h2s, CaptureScreenshot.h1s.
  assert (L : List.length
                (firstn 5 (map (fun e => JS.trim (innerText e))
                               (query_selector_all (SelTags ["h2"]) d))) =
              Nat.min 5 (List.length (query_selector_all (SelTags ["h2"]) d))).
  { rewrite firstn_length_min, length_map. reflexivity. }
  split; [reflexivity|]. split; [exact L|].
  split; [rewrite L; apply Nat.le_min_l|].
  split; [reflexivity|]. split; [apply length_map|].
  intros n. apply h1s_of_page_h1s.
Qed.

Lemma h2s_first_five_h1s_all_witness :
  exists rep,
    captured page_seven_h2 1080 = inr rep /\
    CaptureScreenshot.Report.h2s rep = ["One"; "Two"; "Three"; "Four"; "Five"] /\
    CaptureScreenshot.Report.h1s rep = ["Title"] /\
    exists d, site (serving page_seven_h2) "https://closeclaw.in" 1440 1080
              = Some d /\
      List.length (CaptureScreenshot.Report.h2s rep) =
        Nat.min 5 (List.length (query_selector_all (SelTags ["h2"]) d)).
Proof.
  eexists. split; [reflexivity|]. split; [reflexivity|]. split; [reflexivity|].
  destruct (h2s_first_five_h1s_all (serving page_seven_h2)
              "https://closeclaw.in" "/tmp/screenshot.png" 1440 1080 3000 boot
              _ eq_refl)
    as (d & Hd & _ & H & _).
  exists d. split; [exact Hd | exact H].
Defined.

End CaptureHeadings.
(* ------------------------------------------------------------------ *)
(** ** More on the primitives: slices, trimming, rounding *)

Section Slices.

Lemma slice0_drop (n : nat) (s : string) : JS.slice0 n s ++ JS.drop n s = s.
Proof.
  revert s. induction n as [|n IH]; intros [|c s]; cbn; try reflexivity.
  rewrite IH. reflexivity.
Qed.

Lemma slice0_length (n : nat) (s : string) :
  String.length (JS.slice0 n s) = Nat.min n (String.length s).
Proof.
  revert s. induction n as [|n IH]; intros [|c s]; cbn; try reflexivity.
  rewrite IH. reflexivity.
Qed.

Lemma drop_length (n : nat) (s : string) :
  String.length (JS.drop n s) = (String.length s - n)%nat.
Proof.
  revert s. induction n as [|n IH]; intros [|c s]; cbn; try reflexivity.
  apply IH.
Qed.

Lemma slice_last_length (n : nat) (s : string) :
  String.length (JS.slice_last n s) = Nat.min n (String.length s).
Proof. unfold JS.slice_last. rewrite drop_length. lia. Qed.

Lemma slice_last_suffix (n : nat) (s : string) :
  exists pre, s = pre ++ JS.slice_last n s.
Proof.
  exists (JS.slice0 (String.length s - n) s). unfold JS.slice_last.
  symmetry. apply slice0_drop.
Qed.

Lemma trimEnd_idem (s : string) : JS.trimEnd (JS.trimEnd s) = JS.trimEnd s.
Proof.
  induction s as [|c s IH]; [reflexivity|]. cbn [JS.trimEnd].
  destruct (JS.trimEnd s) as [|d t] eqn:E.
  - destruct (JS.is_space c) eqn:Ec; [reflexivity|].
    cbn [JS.trimEnd]. rewrite Ec. reflexivity.
  - cbn [JS.trimEnd] in *. rewrite IH. reflexivity.
Qed.

(** Trimming the end keeps a first character that is not white space. *)
Lemma trimEnd_head (c : ascii) (s : string) :
  JS.is_space c = false -> exists t, JS.trimEnd (String c s) = String c t.
Proof.
  intros Hc. cbn [JS.trimEnd]. destruct (JS.trimEnd s) as [|d t].
  - rewrite Hc. exists EmptyString. reflexivity.
  - exists (String d t). reflexivity.
Qed.

Lemma trimStart_head (s : string) :
  JS.trimStart s = EmptyString \/
  exists c t, JS.trimStart s = String c t /\ JS.is_space c = false.
Proof.
  induction s as [|c s IH]; [left; reflexivity|]. cbn [JS.trimStart].
  destruct (JS.is_space c) eqn:Ec; [exact IH|].
  right. exists c, s. split; [reflexivity | exact Ec].
Qed.

(** A trimmed string is empty or starts with a character that is not
    white space. *)
Lemma trim_head (s : string) :
  JS.trim s = EmptyString \/
  exists c t, JS.trim s = String c t /\ JS.is_space c = false.
Proof.
  unfold JS.trim. destruct (trimStart_head s) as [-> | (c & t & -> & Hc)].
  - left. reflexivity.
  - right. destruct (trimEnd_head c t Hc) as [t' ->]. exists c, t'. auto.
Qed.

(** Trimming twice is trimming once. *)
Lemma trim_idem (s : string) : JS.trim (JS.trim s) = JS.trim s.
Proof.
  destruct (trim_head s) as [E | (c & t & E & Hc)]; rewrite E.
  - reflexivity.
  - unfold JS.trim at 1. cbn [JS.trimStart]. rewrite Hc.
    rewrite <- E. unfold JS.trim. apply trimEnd_idem.
Qed.

Lemma Math_round_near (x : Q) :
  x - (1 # 2) < inject_Z (JS.Math_round x) /\
  inject_Z (JS.Math_round x) <= x + (1 # 2).
Proof.
  unfold JS.Math_round.
  pose proof (Qfloor_le (x + (1 # 2))) as Hlo.
  pose proof (Qlt_floor (x + (1 # 2))) as Hhi.
  rewrite inject_Z_plus in Hhi. change (inject_Z 1) with 1 in Hhi.
  split; lra.
Qed.

Lemma Math_round_at_least (x : Q) (n : Z) :
  inject_Z n <= x -> (n <= JS.Math_round x)%Z.
Proof.
  intros H. unfold JS.Math_round. rewrite <- (Qfloor_Z n).
  apply Qfloor_resp_le. lra.
Qed.

Lemma Forall2_map_left {A B} (P : B -> A -> Prop) (f : A -> B) (l : list A) :
  (forall x, In x l -> P (f x) x) -> Forall2 P (map f l) l.
Proof.
  induction l as [|x l IH]; intros H; cbn [map]; constructor.
  - apply H. left. reflexivity.
  - apply IH. intros y Hy. apply H. right. exact Hy.
Qed.

End Slices.

(* ------------------------------------------------------------------ *)
(** ** The other fragments of the audit report *)

Section TapTargetFields.

(** X2. Every tap target comes from a link or button, carries at most
    40 characters of its trimmed text, reports a width and a height
    within half a pixel of the measured ones, and, when it is not
    flagged too small, is reported at least 44 wide and 44 high. *)
Theorem tap_target_fields (d : Document) (t : TapTarget.t) :
  In t (DeepSeoAudit.tap_targets d) ->
  exists el, In el (links_and_buttons d) /\
    t = DeepSeoAudit.tap_target_of el /\
    (String.length (TapTarget.text t) <= 40)%nat /\
    (exists rest, JS.trim (innerText el) = TapTarget.text t ++ rest) /\
    (width (rect el) - (1 # 2) < inject_Z (TapTarget.width t) /\
     inject_Z (TapTarget.width t) <= width (rect el) + (1 # 2)) /\
    (height (rect el) - (1 # 2) < inject_Z (TapTarget.height t) /\
     inject_Z (TapTarget.height t) <= height (rect el) + (1 # 2)) /\
    (TapTarget.tooSmall t = false ->
     (44 <= TapTarget.width t /\ 44 <= TapTarget.height t)%Z).
Proof.
  intros Ht. apply tap_targets_in in Ht. destruct Ht as [(el & Hel & ->) _].
  exists el. split; [exact Hel|]. split; [reflexivity|].
  cbn [DeepSeoAudit.tap_target_of TapTarget.text TapTarget.width
       TapTarget.height TapTarget.tooSmall].
  split; [rewrite slice0_length; apply Nat.le_min_l|].
  split; [exists (JS.drop 40 (JS.trim (innerText el)));
          symmetry; apply slice0_drop|].
  split; [apply Math_round_near|]. split; [apply Math_round_near|].
  intros H. apply orb_false_iff in H. destruct H as [Hw Hh].
  apply Qltb_ge in Hw, Hh.
  split; apply Math_round_at_least; assumption.
Qed.

Lemma tap_target_fields_witness :
  exists el, In el (links_and_buttons page_narrow_link) /\
    (String.length "Pricing" <= 40)%nat /\
    width (rect el) - (1 # 2) < inject_Z 44.
Proof.
  destruct (tap_target_fields page_narrow_link
              {| TapTarget.text := "Pricing"; TapTarget.tag := "A";
                 TapTarget.width := 44; TapTarget.height := 50;
                 TapTarget.top := 10; TapTarget.tooSmall := true |})
    as (el & Hel & _ & Hlen & _ & [Hw _] & _).
  - left. reflexivity.
  - exists el. split; [exact Hel|]. split; [exact Hlen | exact Hw].
Defined.

End TapTargetFields.

Section AuditFragments.

Variables (env : Env) (url : string) (vw vh : Z) (w : World).
Variable rep : DeepSeoAudit.Report.t.
Hypothesis returned : fst (audit env url vw vh w) = inr rep.

(** X1. [headings] has one entry for every h1..h6 element, in document
    order; each entry carries the element's tag and computed font size,
    at most 80 characters of its trimmed text, and a top within half a
    pixel of the measured one. *)
Theorem headings_one_per_element :
  exists d, site env url vw vh = Some d /\
    Forall2
      (fun h el =>
         Heading.tag h = tagName el /\
         Heading.fontSize h = fontSize el /\
         Heading.fontWeight h = fontWeight el /\
         (String.length (Heading.text h) <= 80)%nat /\
         (exists rest, JS.trim (innerText el) = Heading.text h ++ rest) /\
         top (rect el) - (1 # 2) < inject_Z (Heading.top h) /\
         inject_Z (Heading.top h) <= top (rect el) + (1 # 2))
      (DeepSeoAudit.Report.headings rep)
      (query_selector_all (SelTags ["h1"; "h2"; "h3"; "h4"; "h5"; "h6"]) d).
Proof.
  destruct (audit_returns env url vw vh w rep returned) as (d & Hd & ->).
  exists d. split; [exact Hd|].
  change (DeepSeoAudit.Report.headings (DeepSeoAudit.report url vw vh d))
    with (DeepSeoAudit.headings vh d).
  unfold DeepSeoAudit.headings. apply Forall2_map_left. intros el _.
  cbn [DeepSeoAudit.heading_of Heading.tag Heading.fontSize Heading.fontWeight
       Heading.text Heading.top].
  split; [reflexivity|]. split; [reflexivity|]. split; [reflexivity|].
  split; [rewrite slice0_length; apply Nat.le_min_l|].
  split; [exists (JS.drop 80 (JS.trim (innerText el)));
          symmetry; apply slice0_drop|].
  apply Math_round_near.
Qed.

(** X3. Every entry of [small_tap_targets_sample] is flagged too small,
    has a positive reported width and height, and a text of at most 40
    characters. *)
Theorem small_sample_entries (t : TapTarget.t) :
  In t (DeepSeoAudit.Report.small_tap_targets_sample rep) ->
  TapTarget.tooSmall t = true /\
  (0 < TapTarget.width t /\ 0 < TapTarget.height t)%Z /\
  (String.length (TapTarget.text t) <= 40)%nat.
Proof.
  destruct (audit_returns env url vw vh w rep returned) as (d & _ & ->).
  change (DeepSeoAudit.Report.small_tap_targets_sample
            (DeepSeoAudit.report url vw vh d))
    with (firstn 5 (DeepSeoAudit.small_targets d)).
  intros Ht. apply in_firstn in Ht. unfold DeepSeoAudit.small_targets in Ht.
  apply filter_In in Ht. destruct Ht as [Hin Hsmall].
  split; [exact Hsmall|].
  apply tap_targets_in in Hin. destruct Hin as [(el & _ & ->) Hpos].
  split; [exact Hpos|].
  cbn [DeepSeoAudit.tap_target_of TapTarget.text].
  rewrite slice0_length. apply Nat.le_min_l.
Qed.

(** X4. [structured_data] holds, in document order, the trimmed text of
    every JSON-LD script element; [structured_data_count] is its length,
    the number of those elements; trimming a block again changes
    nothing. *)
Theorem structured_data_blocks :
  exists d, site env url vw vh = Some d /\
    let scripts :=
      query_selector_all (SelAttr "script" "type" "application/ld+json") d in
    DeepSeoAudit.Report.structured_data rep =
      map (fun el => JS.trim (textContent el)) scripts /\
    DeepSeoAudit.Report.structured_data_count rep =
      List.length (DeepSeoAudit.Report.structured_data rep) /\
    DeepSeoAudit.Report.structured_data_count rep = List.length scripts /\
    (forall b, In b (DeepSeoAudit.Report.structured_data rep) -> JS.trim b = b).
Proof.
  destruct (audit_returns env url vw vh w rep returned) as (d & Hd & ->).
  exists d. split; [exact Hd|]. cbv zeta.
  change (DeepSeoAudit.Report.structured_data (DeepSeoAudit.report url vw vh d))
    with (DeepSeoAudit.ld_json_blocks d).
  change (DeepSeoAudit.Report.structured_data_count
            (DeepSeoAudit.report url vw vh d))
    with (List.length (DeepSeoAudit.ld_json_blocks d)).
  unfold DeepSeoAudit.ld_json_blocks.
  split; [reflexivity|]. split; [reflexivity|]. split; [apply length_map|].
  intros b Hb. apply in_map_iff in Hb. destruct Hb as (el & <- & _).
  apply trim_idem.
Qed.

(** X5. [images] has one entry for every img element, in document
    order; [alt] is the element's alt attribute, [src] is the last 40
    characters of its src attribute (the whole of it when shorter, the
    empty string when the attribute is missing), and the images with and
    without alt text add up to all the images. *)
Theorem images_one_per_element :
  exists d, site env url vw vh = Some d /\
    Forall2
      (fun i el =>
         Image.alt i = getAttribute "alt" el /\
         String.length (Image.src i) =
           Nat.min 40 (String.length (JS.or_empty (getAttribute "src" el))) /\
         (exists pre, JS.or_empty (getAttribute "src" el) = pre ++ Image.src i) /\
         (getAttribute "src" el = None -> Image.src i = EmptyString))
      (DeepSeoAudit.Report.images rep)
      (query_selector_all (SelTags ["img"]) d) /\
    List.length (DeepSeoAudit.Report.images rep) =
      (List.length (filter Image.hasAlt (DeepSeoAudit.Report.images rep)) +
       List.length (DeepSeoAudit.Report.images_missing_alt rep))%nat.
Proof.
  destruct (audit_returns env url vw vh w rep returned) as (d & Hd & ->).
  exists d. split; [exact Hd|].
  unfold DeepSeoAudit.report. cbv zeta.
  cbn [DeepSeoAudit.Report.images DeepSeoAudit.Report.images_missing_alt].
  split.
  - unfold DeepSeoAudit.images. apply Forall2_map_left. intros el _.
    cbn [DeepSeoAudit.image_of Image.alt Image.src].
    split; [reflexivity|]. split; [apply slice_last_length|].
    split; [apply slice_last_suffix|].
    intros ->. reflexivity.
  - induction (DeepSeoAudit.images d) as [|i l IH]; [reflexivity|].
    cbn [filter List.length]. destruct (Image.hasAlt i); cbn [negb List.length]; lia.
Qed.

(** X6. [fonts] holds the first ten font faces of the document, in
    order: all of them when there are at most ten, never more than
    ten. *)
Theorem fonts_first_ten :
  exists d, site env url vw vh = Some d /\
    DeepSeoAudit.Report.fonts rep = firstn 10 (fonts d) /\
    List.length (DeepSeoAudit.Report.fonts rep) =
      Nat.min 10 (List.length (fonts d)) /\
    (exists rest, fonts d = (DeepSeoAudit.Report.fonts rep ++ rest)%list) /\
    ((List.length (fonts d) <= 10)%nat -> DeepSeoAudit.Report.fonts rep = fonts d).
Proof.
  destruct (audit_returns env url vw vh w rep returned) as (d & Hd & ->).
  exists d. split; [exact Hd|].
  change (DeepSeoAudit.Report.fonts (DeepSeoAudit.report url vw vh d))
    with (firstn 10 (fonts d)).
  split; [reflexivity|]. split; [apply firstn_length_min|].
  split; [apply firstn_prefix|]. intros H. apply firstn_all2. exact H.
Qed.

End AuditFragments.

Section FontPositivity.

Lemma positive_sizes_positive (l : list (option Q)) :
  Forall (Qlt 0) (DeepSeoAudit.positive_sizes l).
Proof.
  induction l as [|[s|] l IH]; cbn [DeepSeoAudit.positive_sizes];
    [constructor | | exact IH].
  destruct (Qltb 0 s) eqn:E; [|exact IH].
  constructor; [apply Qltb_lt; exact E | exact IH].
Qed.

(** X7. Every font size collected above the fold is positive, so
    [min_above_fold_font_px], when not null, is positive, and
    [avg_above_fold_font_px], when not null, is not negative. *)
Theorem font_statistics_positive (env : Env) (url : string) (vw vh : Z)
  (w : World) (rep : DeepSeoAudit.Report.t) :
  fst (audit env url vw vh w) = inr rep ->
  (forall m, DeepSeoAudit.Report.min_above_fold_font_px rep = Some m -> 0 < m) /\
  (forall a, DeepSeoAudit.Report.avg_above_fold_font_px rep = Some a -> 0 <= a).
Proof.
  intros Hret.
  destruct (audit_returns env url vw vh w rep Hret) as (d & _ & ->).
  unfold DeepSeoAudit.report. cbv zeta.
  cbn [DeepSeoAudit.Report.min_above_fold_font_px
       DeepSeoAudit.Report.avg_above_fold_font_px].
  assert (Hpos : Forall (Qlt 0) (DeepSeoAudit.body_font_sizes vh d))
    by apply positive_sizes_positive.
  destruct (DeepSeoAudit.body_font_sizes vh d) as [|x l]; [split; discriminate|].
  cbn [DeepSeoAudit.min_font DeepSeoAudit.avg_font Py.min]. split.
  - intros m [= <-]. rewrite Forall_forall in Hpos.
    apply Hpos, min_from_in.
  - intros a [= <-]. apply round_nonneg.
    assert (Hsum : 0 <= Py.sum (x :: l)).
    { apply sum_nonneg. eapply Forall_impl; [|exact Hpos].
      intros q Hq. apply Qlt_le_weak. exact Hq. }
    apply div_nonneg; [exact Hsum|].
    change 0 with (inject_Z 0). rewrite <- Zlt_Qlt. cbn [List.length]. lia.
Qed.

Lemma font_statistics_positive_witness :
  exists rep,
    audited page_landing 900 = inr rep /\
    DeepSeoAudit.Report.min_above_fold_font_px rep = Some 18 /\
    (forall m, DeepSeoAudit.Report.min_above_fold_font_px rep = Some m -> 0 < m).
Proof.
  destruct (audited page_landing 900) as [e|rep] eqn:E;
    [vm_compute in E; discriminate E|].
  exists rep. split; [reflexivity|].
  pose proof (font_statistics_positive (serving page_landing)
                "https://closeclaw.in" 1440 900 boot rep E) as [H _].
  split; [|exact H].
  vm_compute in E. injection E as <-. reflexivity.
Defined.

End FontPositivity.

Section AuditFragmentWitnesses.

Lemma headings_one_per_element_witness :
  exists rep,
    audited page_landing 900 = inr rep /\
    map (fun h => String.length (Heading.text h))
        (DeepSeoAudit.Report.headings rep) = [18%nat; 80%nat] /\
    exists d, site (serving page_landing) "https://closeclaw.in" 1440 900
              = Some d /\
      List.length (DeepSeoAudit.Report.headings rep) =
        List.length
          (query_selector_all (SelTags ["h1"; "h2"; "h3"; "h4"; "h5"; "h6"]) d).
Proof.
  eexists. split; [reflexivity|]. split; [reflexivity|].
  destruct (headings_one_per_element (serving page_landing)
              "https://closeclaw.in" 1440 900 boot _ eq_refl)
    as (d & Hd & H).
  exists d. split; [exact Hd|]. apply (Forall2_length H).
Defined.

Lemma small_sample_entries_witness :
  TapTarget.tooSmall
    {| TapTarget.text := "Pricing"; TapTarget.tag := "A";
       TapTarget.width := 70; TapTarget.height := 20;
       TapTarget.top := 20; TapTarget.tooSmall := true |} = true /\
  (0 < 70 /\ 0 < 20)%Z /\ (String.length "Pricing" <= 40)%nat.
Proof.
  apply (small_sample_entries (serving page_landing)
           "https://closeclaw.in" 1440 900 boot _ eq_refl).
  left. reflexivity.
Defined.

Lemma structured_data_blocks_witness :
  exists rep,
    audited page_landing 900 = inr rep /\
    DeepSeoAudit.Report.structured_data rep
      = ["{ @type: Organization }"; "{ @type: WebSite }"] /\
    exists d, site (serving page_landing) "https://closeclaw.in" 1440 900
              = Some d /\
      DeepSeoAudit.Report.structured_data_count rep =
        List.length
          (query_selector_all (SelAttr "script" "type" "application/ld+json") d).
Proof.
  eexists. split; [reflexivity|]. split; [reflexivity|].
  destruct (structured_data_blocks (serving page_landing)
              "https://closeclaw.in" 1440 900 boot _ eq_refl)
    as (d & Hd & _ & _ & H & _).
  exists d. split; [exact Hd | exact H].
Defined.

Lemma images_one_per_element_witness :
  exists rep,
    audited page_landing 900 = inr rep /\
    map Image.src (DeepSeoAudit.Report.images rep)
      = ["s/images/marketing/hero-dashboard@2x.png"; EmptyString] /\
    List.length (DeepSeoAudit.Report.images rep) =
      (List.length (filter Image.hasAlt (DeepSeoAudit.Report.images rep)) +
       List.length (DeepSeoAudit.Report.images_missing_alt rep))%nat.
Proof.
  eexists. split; [reflexivity|]. split; [reflexivity|].
  destruct (images_one_per_element (serving page_landing)
              "https://closeclaw.in" 1440 900 boot _ eq_refl)
    as (d & _ & _ & H).
  exact H.
Defined.

Lemma fonts_first_ten_witness :
  exists rep,
    audited page_landing 900 = inr rep /\
    List.length (DeepSeoAudit.Report.fonts rep) = 10%nat /\
    exists d, site (serving page_landing) "https://closeclaw.in" 1440 900
              = Some d /\
      List.length (fonts d) = 12%nat /\
      DeepSeoAudit.Report.fonts rep = firstn 10 (fonts d).
Proof.
  eexists. split; [reflexivity|]. split; [reflexivity|].
  destruct (fonts_first_ten (serving page_landing)
              "https://closeclaw.in" 1440 900 boot _ eq_refl)
    as (d & Hd & H & _).
  exists d. split; [exact Hd|]. split; [|exact H].
  injection Hd as <-. reflexivity.
Defined.

End AuditFragmentWitnesses.

(* ------------------------------------------------------------------ *)
(** ** Effects and failures of the entry points *)

Section Effects.

Variable env : Env.

Lemma launch_keeps_files (fs : list string) :
  keeps (fun w => files w = fs) (launch env).
Proof.
  unfold launch. apply keeps_bind; [apply keeps_call|].
  intros _ w Hw. exact Hw.
Qed.

Lemma close_keeps_files (fs : list string) :
  keeps (fun w => files w = fs) (close env).
Proof.
  unfold close. apply keeps_bind; [apply keeps_call|].
  intros _ w Hw. exact Hw.
Qed.

Ltac keeping :=
  repeat first
    [ apply launch_keeps_files | apply close_keeps_files
    | apply keeps_call | apply keeps_goto | apply keeps_get_meta
    | apply keeps_ret | apply keeps_raise
    | apply keeps_bind; [| intros ?]
    | match goal with
      | |- keeps _ (match ?x with Some _ => _ | None => _ end) => destruct x
      | |- keeps _ (if ?b then _ else _) => destruct b
      end ].

Lemma stop_files (w : World) : files (stop w) = files w.
Proof. reflexivity. Qed.

(** Through the [with] block, the files written are those the body
    wrote. *)
Lemma with_sync_playwright_files {A} (body : M A) (P : list string -> Prop)
  (w : World) :
  P (files w) ->
  keeps (fun w' => P (files w')) body ->
  P (files (snd (with_sync_playwright env body w))).
Proof.
  intros Hw Hk. unfold with_sync_playwright, call, raise, ret.
  destruct (faulty env StartDriver); cbn [snd]; [exact Hw|].
  specialize (Hk {| driver := Running; browser := browser w; files := files w |} Hw).
  destruct (body _) as [r w'']. cbn [snd] in *. rewrite stop_files. exact Hk.
Qed.

(** X8. [audit] writes no file: whatever the page and wherever the
    engine fails, the files present after the call are those present
    before it. *)
Theorem audit_writes_no_file (url : string) (vw vh : Z) (w : World) :
  files (snd (audit env url vw vh w)) = files w.
Proof.
  unfold audit.
  apply (with_sync_playwright_files _ (fun fs => fs = files w)); [reflexivity|].
  cbv zeta. keeping.
Qed.

End Effects.

Section Failures.

Variable env : Env.

Lemma launch_inr (w w1 : World) (u : unit) :
  launch env w = (inr u, w1) -> faulty env Launch = false.
Proof.
  unfold launch. intros H. apply bind_inr in H.
  destruct H as (? & ? & H & _). apply call_inr in H. tauto.
Qed.

Lemma close_inr (w w1 : World) (u : unit) :
  close env w = (inr u, w1) -> faulty env Close = false.
Proof.
  unfold close. intros H. apply bind_inr in H.
  destruct H as (? & ? & H & _). apply call_inr in H. tauto.
Qed.

Lemma screenshot_inr (path : string) (w w1 : World) (u : unit) :
  screenshot env path w = (inr u, w1) -> faulty env Screenshot = false.
Proof.
  unfold screenshot. intros H. apply bind_inr in H.
  destruct H as (? & ? & H & _). apply call_inr in H. tauto.
Qed.

Lemma goto_reached (url : string) (vw vh : Z) (w w1 : World) (d : Document) :
  goto env url vw vh w = (inr d, w1) -> faulty env Goto = false.
Proof.
  unfold goto. intros H. apply bind_inr in H.
  destruct H as (? & ? & H & _). apply call_inr in H. tauto.
Qed.

Lemma get_meta_reached (d : Document) (sel : Selector) (attr : string)
  (x : option string) (w w1 : World) :
  get_meta env d sel attr w = (inr x, w1) ->
  faulty env (QuerySelector sel) = false.
Proof.
  unfold get_meta. intros H. apply bind_inr in H.
  destruct H as (? & ? & H & _). apply call_inr in H. tauto.
Qed.

Lemma makedirs_inr (path : string) (w w1 : World) (u : unit) :
  makedirs env path w = (inr u, w1) ->
  faulty env Makedirs = false.
Proof.
  unfold makedirs. destruct (faulty env Makedirs); [discriminate | reflexivity].
Qed.

Ltac reached :=
  repeat match goal with
    | H : bind _ _ _ = (inr _, _) |- _ =>
        apply bind_inr in H; destruct H as (? & ? & ? & H)
    | H : call env _ _ _ = (inr _, _) |- _ =>
        apply call_inr in H; destruct H as (_ & _ & H)
    | H : launch env _ = (inr _, _) |- _ => apply launch_inr in H
    | H : close env _ = (inr _, _) |- _ => apply close_inr in H
    | H : screenshot env _ _ = (inr _, _) |- _ => apply screenshot_inr in H
    | H : goto env _ _ _ _ = (inr _, _) |- _ => apply goto_reached in H
    | H : get_meta env _ _ _ _ = (inr _, _) |- _ => apply get_meta_reached in H
    | H : makedirs env _ _ = (inr _, _) |- _ => apply makedirs_inr in H
    | H : ret _ _ = (inr _, _) |- _ => clear H
    | H : match ?o with Some _ => _ | None => _ end _ = (inr _, _) |- _ =>
        clear H
    end.

Ltac one_of_the_calls :=
  match goal with
  | |- forall c, In c _ -> _ =>
      let c := fresh "c" in
      let Hin := fresh "Hin" in
      intros c Hin; cbn [In] in Hin;
      repeat (destruct Hin as [<- | Hin]; [assumption|]); contradiction
  end.

(** A run of [audit] that returns met no failure at any of its call
    sites. *)
Lemma audit_returned_healthy (url : string) (vw vh : Z) (w : World)
  (rep : DeepSeoAudit.Report.t) :
  fst (audit env url vw vh w) = inr rep ->
  forall c, In c audit_calls -> faulty env c = false.
Proof.
  unfold audit, with_sync_playwright.
  destruct (call env StartDriver tt w) as [[e|u] w0] eqn:Hs; [discriminate|].
  apply call_inr in Hs. destruct Hs as (_ & _ & Hs).
  match goal with
  | |- context [let '(r, w'') := ?b ?x in _] => destruct (b x) as [r w1] eqn:Hb
  end.
  cbn [fst]. intros ->. cbv zeta in Hb. reached.
  unfold audit_calls. one_of_the_calls.
Qed.

(** Likewise for [capture]. *)
Lemma capture_returned_healthy (url output_path : string) (vw vh wait_ms : Z)
  (w : World) (rep : CaptureScreenshot.Report.t) :
  fst (capture env url output_path vw vh wait_ms w) = inr rep ->
  forall c, In c capture_calls -> faulty env c = false.
Proof.
  unfold capture, with_sync_playwright.
  destruct (call env StartDriver tt w) as [[e|u] w0] eqn:Hs; [discriminate|].
  apply call_inr in Hs. destruct Hs as (_ & _ & Hs).
  match goal with
  | |- context [let '(r, w'') := ?b ?x in _] => destruct (b x) as [r w1] eqn:Hb
  end.
  cbn [fst]. intros ->. cbv zeta in Hb. reached.
  unfold capture_calls. one_of_the_calls.
Qed.

(** X9. [audit] returns no partial report: when navigation does not
    settle, or when the engine fails at any of the call sites of
    [audit_calls], the call raises. *)
Theorem audit_fails_fast (url : string) (vw vh : Z) (w : World) :
  site env url vw vh = None \/
  (exists c, In c audit_calls /\ faulty env c = true) ->
  exists e, fst (audit env url vw vh w) = inl e.
Proof.
  intros H. destruct (fst (audit env url vw vh w)) as [e|rep] eqn:E.
  - exists e. reflexivity.
  - exfalso. destruct H as [Hs | (c & Hc & Hf)].
    + destruct (audit_returns env url vw vh w rep E) as (d & Hd & _).
      congruence.
    + rewrite (audit_returned_healthy url vw vh w rep E c Hc) in Hf.
      discriminate.
Qed.

(** X10. Likewise [capture]: when navigation does not settle, or the
    engine fails at any of the call sites of [capture_calls], creating
    the output directory and taking the screenshot included, the call
    raises and returns no report. *)
Theorem capture_fails_fast (url output_path : string) (vw vh wait_ms : Z)
  (w : World) :
  site env url vw vh = None \/
  (exists c, In c capture_calls /\ faulty env c = true) ->
  exists e, fst (capture env url output_path vw vh wait_ms w) = inl e.
Proof.
  intros H.
  destruct (fst (capture env url output_path vw vh wait_ms w)) as [e|rep] eqn:E.
  - exists e. reflexivity.
  - exfalso. destruct H as [Hs | (c & Hc & Hf)].
    + destruct (capture_returns env url output_path vw vh wait_ms w rep E)
        as (d & Hd & _).
      congruence.
    + rewrite (capture_returned_healthy url output_path vw vh wait_ms w rep E c Hc)
        in Hf.
      discriminate.
Qed.

(** X11. When the calls up to navigation succeed and navigation does
    not settle, [audit] raises the navigation timeout, with the driver
    and the browser terminated and no file written. *)
Theorem audit_navigation_timeout (url : string) (vw vh : Z) (w : World) :
  (forall c, In c [StartDriver; Launch; NewContext; NewPage; On; Goto] ->
             faulty env c = false) ->
  site env url vw vh = None ->
  audit env url vw vh w =
    (inl NavigationTimeout,
     {| driver := Terminated; browser := Terminated; files := files w |}).
Proof.
  intros H Hs.
  unfold audit, with_sync_playwright, launch, goto, call.
  rewrite (H StartDriver), (H Launch), (H NewContext), (H NewPage), (H On),
    (H Goto), Hs by (cbn [In]; tauto).
  reflexivity.
Qed.

(** X12. Likewise [capture] raises the navigation timeout, terminates
    both processes and takes no screenshot. *)
Theorem capture_navigation_timeout (url output_path : string)
  (vw vh wait_ms : Z) (w : World) :
  (forall c, In c [StartDriver; Launch; NewContext; NewPage; Goto] ->
             faulty env c = false) ->
  site env url vw vh = None ->
  capture env url output_path vw vh wait_ms w =
    (inl NavigationTimeout,
     {| driver := Terminated; browser := Terminated; files := files w |}).
Proof.
  intros H Hs.
  unfold capture, with_sync_playwright, launch, goto, call.
  rewrite (H StartDriver), (H Launch), (H NewContext), (H NewPage),
    (H Goto), Hs by (cbn [In]; tauto).
  reflexivity.
Qed.

End Failures.

Section ScreenshotFile.

Variable env : Env.






End ScreenshotFile.

(* ------------------------------------------------------------------ *)
(** ** The other fragments of the capture report *)

Section CaptureFragments.

Variables (env : Env) (url output_path : string) (vw vh wait_ms : Z) (w : World).
Variable rep : CaptureScreenshot.Report.t.
Hypothesis returned :
  fst (capture env url output_path vw vh wait_ms w) = inr rep.

(** X14. [ctas] holds, in document order, the first eight (or all, when
    fewer) links and buttons whose trimmed text contains, whatever the
    case, one of the nine words get, start, book, contact, try, demo,
    free, sign, request; the text reported for each is trimmed and
    contains such a word. *)
Theorem ctas_first_eight :
  exists d, site env url vw vh = Some d /\
    let matching := filter CaptureScreenshot.is_cta (links_and_buttons d) in
    CaptureScreenshot.Report.ctas rep =
      map (CaptureScreenshot.cta_of vh) (firstn 8 matching) /\
    List.length (CaptureScreenshot.Report.ctas rep) =
      Nat.min 8 (List.length matching) /\
    (forall el, In el matching <->
       In el (links_and_buttons d) /\
       exists word, In word CaptureScreenshot.cta_words /\
         JS.includes (JS.toLowerCase (JS.trim (innerText el))) word = true) /\
    (forall c, In c (CaptureScreenshot.Report.ctas rep) ->
       JS.trim (Cta.text c) = Cta.text c /\
       exists word, In word CaptureScreenshot.cta_words /\
         JS.includes (JS.toLowerCase (Cta.text c)) word = true).
Proof.
  destruct (capture_returns env url output_path vw vh wait_ms w rep returned)
    as (d & Hd & ->).
  exists d. split; [exact Hd|]. cbv zeta.
  change (CaptureScreenshot.Report.ctas (CaptureScreenshot.report vh d))
    with (map (CaptureScreenshot.cta_of vh)
              (firstn 8 (filter CaptureScreenshot.is_cta (links_and_buttons d)))).
  assert (M : forall el,
             In el (filter CaptureScreenshot.is_cta (links_and_buttons d)) <->
             In el (links_and_buttons d) /\
             exists word, In word CaptureScreenshot.cta_words /\
               JS.includes (JS.toLowerCase (JS.trim (innerText el))) word = true).
  { intros el. rewrite filter_In. unfold CaptureScreenshot.is_cta.
    cbv zeta. rewrite existsb_exists. tauto. }
  split; [reflexivity|].
  split; [rewrite length_map; apply firstn_length_min|].
  split; [exact M|].
  intros c Hc. apply in_map_iff in Hc. destruct Hc as (el & <- & Hel).
  apply in_firstn, M in Hel. destruct Hel as [_ Hword].
  cbn [CaptureScreenshot.cta_of Cta.text].
  split; [apply trim_idem | exact Hword].
Qed.

(** X15. [meta_description] is the content attribute of the first
    description meta element when that element carries one, and null
    otherwise: when the page has no description, or when the element
    lacks the attribute. *)
Theorem meta_description_nullable :
  exists d, site env url vw vh = Some d /\
    let found := query_selector CaptureScreenshot.meta_description d in
    (forall s, CaptureScreenshot.Report.meta_description rep = Some s <->
       exists el, found = Some el /\ getAttribute "content" el = Some s) /\
    (CaptureScreenshot.Report.meta_description rep = None <->
       found = None \/
       exists el, found = Some el /\ getAttribute "content" el = None).
Proof.
  destruct (capture_returns env url output_path vw vh wait_ms w rep returned)
    as (d & Hd & ->).
  exists d. split; [exact Hd|]. cbv zeta.
  change (CaptureScreenshot.Report.meta_description
            (CaptureScreenshot.report vh d))
    with (CaptureScreenshot.meta_desc d).
  unfold CaptureScreenshot.meta_desc, CaptureScreenshot.eval_content.
  destruct (query_selector CaptureScreenshot.meta_description d) as [el|].
  - split.
    + intros s. split.
      * intros H. exists el. split; [reflexivity | exact H].
      * intros (el' & [= <-] & H). exact H.
    + split.
      * intros H. right. exists el. split; [reflexivity | exact H].
      * intros [[=] | (el' & [= <-] & H)]. exact H.
  - split.
    + intros s. split; [discriminate | intros (el & [=] & _)].
    + split; [intros _; left; reflexivity | reflexivity].
Qed.

(** X16. The scroll metrics of the report are those of the document,
    and [has_horizontal_scroll] is true exactly when the reported
    [scroll_width] exceeds the reported [client_width]. *)
Theorem horizontal_scroll_iff_wider :
  exists d, site env url vw vh = Some d /\
    CaptureScreenshot.Report.scroll_width rep = scrollWidth d /\
    CaptureScreenshot.Report.client_width rep = clientWidth d /\
    CaptureScreenshot.Report.has_horizontal_scroll rep =
      CaptureScreenshot.has_h_scroll d /\
    (CaptureScreenshot.Report.has_horizontal_scroll rep = true <->
     (CaptureScreenshot.Report.client_width rep <
      CaptureScreenshot.Report.scroll_width rep)%Z) /\
    (CaptureScreenshot.Report.has_horizontal_scroll rep = false <->
     (CaptureScreenshot.Report.scroll_width rep <=
      CaptureScreenshot.Report.client_width rep)%Z).
Proof.
  destruct (capture_returns env url output_path vw vh wait_ms w rep returned)
    as (d & Hd & ->).
  exists d. split; [exact Hd|].
  unfold CaptureScreenshot.report, CaptureScreenshot.has_h_scroll.
  cbn [CaptureScreenshot.Report.scroll_width CaptureScreenshot.Report.client_width
       CaptureScreenshot.Report.has_horizontal_scroll].
  split; [reflexivity|]. split; [reflexivity|]. split; [reflexivity|].
  split; [apply Z.ltb_lt | apply Z.ltb_ge].
Qed.

(** X17. Every logo candidate carries the tag of its element and a src
    that is never empty: the element's src attribute when it has a
    non-empty one, the placeholder (svg) otherwise, for an img without
    src as for an svg. *)
Theorem logo_src_never_empty :
  exists d, site env url vw vh = Some d /\
    Forall2
      (fun l el =>
         Logo.tag l = tagName el /\
         Logo.src l <> EmptyString /\
         (forall c s, getAttribute "src" el = Some (String c s) ->
                      Logo.src l = String c s) /\
         (getAttribute "src" el = None \/
          getAttribute "src" el = Some EmptyString ->
          Logo.src l = "(svg)"))
      (CaptureScreenshot.Report.logo_candidates rep)
      (firstn 3 (filter CaptureScreenshot.is_logo (imgs_and_svgs d))).
Proof.
  destruct (capture_returns env url output_path vw vh wait_ms w rep returned)
    as (d & Hd & ->).
  exists d. split; [exact Hd|].
  change (CaptureScreenshot.Report.logo_candidates (CaptureScreenshot.report vh d))
    with (map (CaptureScreenshot.logo_of vh)
              (firstn 3 (filter CaptureScreenshot.is_logo (imgs_and_svgs d)))).
  apply Forall2_map_left. intros el _.
  cbn [CaptureScreenshot.logo_of Logo.tag Logo.src].
  split; [reflexivity|].
  destruct (getAttribute "src" el) as [[|c s]|]; cbn [JS.or_default].
  - split; [discriminate|]. split; [discriminate | reflexivity].
  - split; [discriminate|]. split.
    + intros c' s' [= <- <-]. reflexivity.
    + intros [[=] | [=]].
  - split; [discriminate|]. split; [discriminate | reflexivity].
Qed.

(** X18. [title] is the document title, and every text of [h1s] and
    [h2s] is trimmed: trimming it again changes nothing, and it is empty
    or starts with a character that is not white space. *)
Theorem heading_texts_trimmed :
  (exists d, site env url vw vh = Some d /\
             CaptureScreenshot.Report.title rep = title d) /\
  forall t, In t (CaptureScreenshot.Report.h1s rep) \/
            In t (CaptureScreenshot.Report.h2s rep) ->
    JS.trim t = t /\
    (t = EmptyString \/ exists c t', t = String c t' /\ JS.is_space c = false).
Proof.
  destruct (capture_returns env url output_path vw vh wait_ms w rep returned)
    as (d & Hd & ->).
  split; [exists d; split; [exact Hd | reflexivity]|].
  change (CaptureScreenshot.Report.h1s (CaptureScreenshot.report vh d))
    with (CaptureScreenshot.h1s d).
  change (CaptureScreenshot.Report.h2s (CaptureScreenshot.report vh d))
    with (firstn 5 (CaptureScreenshot.h2s d)).
  assert (T : forall s, JS.trim (JS.trim s) = JS.trim s /\
                (JS.trim s = EmptyString \/
                 exists c t', JS.trim s = String c t' /\ JS.is_space c = false)).
  { intros s. split; [apply trim_idem | apply trim_head]. }
  intros t [Ht | Ht].
  - unfold CaptureScreenshot.h1s in Ht. apply in_map_iff in Ht.
    destruct Ht as (el & <- & _). apply T.
  - apply in_firstn in Ht. unfold CaptureScreenshot.h2s in Ht.
    apply in_map_iff in Ht. destruct Ht as (el & <- & _). apply T.
Qed.

End CaptureFragments.

Section FurtherWitnesses.

Lemma audit_fails_fast_witness :
  exists e, fst (audit (broken_images page_landing) "https://closeclaw.in"
                   1440 900 boot) = inl e.
Proof.
  apply (audit_fails_fast (broken_images page_landing)).
  right. exists (EvalOnSelectorAll (SelTags ["img"])).
  split; [|reflexivity]. unfold audit_calls. cbn [In]. tauto.
Defined.

Lemma capture_fails_fast_witness :
  exists e, fst (capture (broken_screenshot page_landing) "https://closeclaw.in"
                   "/tmp/screenshot.png" 1440 900 3000 boot) = inl e.
Proof.
  apply (capture_fails_fast (broken_screenshot page_landing)).
  right. exists Screenshot.
  split; [|reflexivity]. unfold capture_calls. cbn [In]. tauto.
Defined.

Lemma audit_navigation_timeout_witness :
  audit unreachable "https://closeclaw.invalid" 1440 900 boot =
    (inl NavigationTimeout,
     {| driver := Terminated; browser := Terminated; files := [] |}).
Proof.
  apply (audit_navigation_timeout unreachable "https://closeclaw.invalid"
           1440 900 boot).
  - intros c _. reflexivity.
  - reflexivity.
Defined.

Lemma capture_navigation_timeout_witness :
  capture unreachable "https://closeclaw.invalid" "/tmp/screenshot.png"
    1440 900 3000 boot =
    (inl NavigationTimeout,
     {| driver := Terminated; browser := Terminated; files := [] |}).
Proof.
  apply (capture_navigation_timeout unreachable "https://closeclaw.invalid"
           "/tmp/screenshot.png" 1440 900 3000 boot).
  - intros c _. reflexivity.
  - reflexivity.
Defined.


Lemma ctas_first_eight_witness :
  exists rep,
    captured page_landing 900 = inr rep /\
    map Cta.text (CaptureScreenshot.Report.ctas rep)
      = ["Get Started"; "Book a demo"; "Contact sales"; "Try it";
         "Start free"; "Sign in"; "Request access"; "FREE trial"] /\
    exists d, site (serving page_landing) "https://closeclaw.in" 1440 900
              = Some d /\
      List.length (filter CaptureScreenshot.is_cta (links_and_buttons d))
        = 10%nat /\
      List.length (CaptureScreenshot.Report.ctas rep) =
        Nat.min 8
          (List.length (filter CaptureScreenshot.is_cta (links_and_buttons d))).
Proof.
  eexists. split; [reflexivity|]. split; [reflexivity|].
  destruct (ctas_first_eight (serving page_landing) "https://closeclaw.in"
              "/tmp/screenshot.png" 1440 900 3000 boot _ eq_refl)
    as (d & Hd & _ & H & _).
  exists d. split; [exact Hd|]. split; [|exact H].
  injection Hd as <-. reflexivity.
Defined.

Lemma meta_description_nullable_witness :
  exists rep,
    captured page_landing 900 = inr rep /\
    CaptureScreenshot.Report.meta_description rep = Some "Close more deals" /\
    exists el, query_selector CaptureScreenshot.meta_description page_landing
               = Some el /\
               getAttribute "content" el = Some "Close more deals".
Proof.
  eexists. split; [reflexivity|]. split; [reflexivity|].
  destruct (meta_description_nullable (serving page_landing)
              "https://closeclaw.in" "/tmp/screenshot.png" 1440 900 3000 boot
              _ eq_refl)
    as (d & Hd & H & _).
  injection Hd as <-. apply H. reflexivity.
Defined.

Lemma horizontal_scroll_iff_wider_witness :
  exists rep,
    captured page_landing 900 = inr rep /\
    CaptureScreenshot.Report.has_horizontal_scroll rep = true /\
    (CaptureScreenshot.Report.client_width rep <
     CaptureScreenshot.Report.scroll_width rep)%Z.
Proof.
  eexists. split; [reflexivity|]. split; [reflexivity|].
  destruct (horizontal_scroll_iff_wider (serving page_landing)
              "https://closeclaw.in" "/tmp/screenshot.png" 1440 900 3000 boot
              _ eq_refl)
    as (d & _ & _ & _ & _ & H & _).
  apply H. reflexivity.
Defined.

Lemma logo_src_never_empty_witness :
  exists rep,
    captured page_landing 900 = inr rep /\
    map Logo.src (CaptureScreenshot.Report.logo_candidates rep) = ["(svg)"] /\
    exists d, site (serving page_landing) "https://closeclaw.in" 1440 900
              = Some d /\
      List.length (CaptureScreenshot.Report.logo_candidates rep) =
        List.length
          (firstn 3 (filter CaptureScreenshot.is_logo (imgs_and_svgs d))).
Proof.
  eexists. split; [reflexivity|]. split; [reflexivity|].
  destruct (logo_src_never_empty (serving page_landing)
              "https://closeclaw.in" "/tmp/screenshot.png" 1440 900 3000 boot
              _ eq_refl)
    as (d & Hd & H).
  exists d. split; [exact Hd | apply (Forall2_length H)].
Defined.

Lemma heading_texts_trimmed_witness :
  JS.trim "Close deals faster" = "Close deals faster" /\
  ("Close deals faster" = EmptyString \/
   exists c t', "Close deals faster" = String c t' /\ JS.is_space c = false).
Proof.
  apply (proj2 (heading_texts_trimmed (serving page_landing)
                  "https://closeclaw.in" "/tmp/screenshot.png" 1440 900 3000
                  boot _ eq_refl)).
  left. left. reflexivity.
Defined.

End FurtherWitnesses.

(* ------------------------------------------------------------------ *)
(** ** Flags and geometry in the returned reports *)

Section ReportedFlags.

Variable env : Env.

(** X19. In the report of [audit], the [aboveFold] flag of every
    heading is true exactly when the top of its element is below the
    viewport height and its bottom is above 0. *)
Theorem heading_flags_in_viewport (url : string) (vw vh : Z) (w : World)
  (rep : DeepSeoAudit.Report.t) :
  fst (audit env url vw vh w) = inr rep ->
  exists d, site env url vw vh = Some d /\
    Forall2
      (fun h el =>
         Heading.aboveFold h = true <->
         top (rect el) < inject_Z vh /\ 0 < bottom (rect el))
      (DeepSeoAudit.Report.headings rep)
      (query_selector_all (SelTags ["h1"; "h2"; "h3"; "h4"; "h5"; "h6"]) d).
Proof.
  intros Hret.
  destruct (audit_returns env url vw vh w rep Hret) as (d & Hd & ->).
  exists d. split; [exact Hd|].
  change (DeepSeoAudit.Report.headings (DeepSeoAudit.report url vw vh d))
    with (DeepSeoAudit.headings vh d).
  unfold DeepSeoAudit.headings. apply Forall2_map_left. intros el _.
  apply in_viewport_iff.
Qed.

(** X20. In the report of [capture], every CTA candidate carries the
    tag of its element, a position and a size within half a pixel of
    the measured ones, and a [visible] flag that is true exactly when
    the top of the element is below the viewport height and its bottom
    is above 0. *)
Theorem cta_geometry (url output_path : string) (vw vh wait_ms : Z)
  (w : World) (rep : CaptureScreenshot.Report.t) :
  fst (capture env url output_path vw vh wait_ms w) = inr rep ->
  exists d, site env url vw vh = Some d /\
    let near := fun (x : Q) (n : Z) =>
      x - (1 # 2) < inject_Z n /\ inject_Z n <= x + (1 # 2) in
    Forall2
      (fun c el =>
         Cta.tag c = tagName el /\
         near (top (rect el)) (Cta.top c) /\
         near (left (rect el)) (Cta.left c) /\
         near (width (rect el)) (Cta.width c) /\
         near (height (rect el)) (Cta.height c) /\
         (Cta.visible c = true <->
          top (rect el) < inject_Z vh /\ 0 < bottom (rect el)))
      (CaptureScreenshot.Report.ctas rep)
      (firstn 8 (filter CaptureScreenshot.is_cta (links_and_buttons d))).
Proof.
  intros Hret.
  destruct (capture_returns env url output_path vw vh wait_ms w rep Hret)
    as (d & Hd & ->).
  exists d. split; [exact Hd|]. cbv zeta.
  change (CaptureScreenshot.Report.ctas (CaptureScreenshot.report vh d))
    with (map (CaptureScreenshot.cta_of vh)
              (firstn 8 (filter CaptureScreenshot.is_cta (links_and_buttons d)))).
  apply Forall2_map_left. intros el _.
  cbn [CaptureScreenshot.cta_of Cta.tag Cta.top Cta.left Cta.width Cta.height
       Cta.visible].
  split; [reflexivity|].
  repeat (split; [apply Math_round_near|]).
  apply in_viewport_iff.
Qed.

(** X21. In the report of [capture], the [visible] flag of a logo
    candidate is true exactly when the top of its element is below the
    viewport height, wherever its bottom lies. *)
Theorem logo_visible_iff_top_below (url output_path : string)
  (vw vh wait_ms : Z) (w : World) (rep : CaptureScreenshot.Report.t) :
  fst (capture env url output_path vw vh wait_ms w) = inr rep ->
  exists d, site env url vw vh = Some d /\
    Forall2
      (fun l el => Logo.visible l = true <-> top (rect el) < inject_Z vh)
      (CaptureScreenshot.Report.logo_candidates rep)
      (firstn 3 (filter CaptureScreenshot.is_logo (imgs_and_svgs d))).
Proof.
  intros Hret.
  destruct (capture_returns env url output_path vw vh wait_ms w rep Hret)
    as (d & Hd & ->).
  exists d. split; [exact Hd|].
  change (CaptureScreenshot.Report.logo_candidates (CaptureScreenshot.report vh d))
    with (map (CaptureScreenshot.logo_of vh)
              (firstn 3 (filter CaptureScreenshot.is_logo (imgs_and_svgs d)))).
  apply Forall2_map_left. intros el _. apply Qltb_lt.
Qed.

End ReportedFlags.

Section ReportedFlagWitnesses.

Lemma heading_flags_in_viewport_witness :
  exists rep,
    audited page_landing 900 = inr rep /\
    map Heading.aboveFold (DeepSeoAudit.Report.headings rep) = [true; false] /\
    exists d, site (serving page_landing) "https://closeclaw.in" 1440 900
              = Some d /\
      List.length (DeepSeoAudit.Report.headings rep) =
        List.length
          (query_selector_all (SelTags ["h1"; "h2"; "h3"; "h4"; "h5"; "h6"]) d).
Proof.
  eexists. split; [reflexivity|]. split; [reflexivity|].
  destruct (heading_flags_in_viewport (serving page_landing)
              "https://closeclaw.in" 1440 900 boot _ eq_refl)
    as (d & Hd & H).
  exists d. split; [exact Hd | apply (Forall2_length H)].
Defined.

Lemma cta_geometry_witness :
  exists rep,
    captured page_landing 900 = inr rep /\
    map Cta.visible (CaptureScreenshot.Report.ctas rep)
      = [true; true; true; true; true; true; true; true] /\
    exists d, site (serving page_landing) "https://closeclaw.in" 1440 900
              = Some d /\
      List.length (CaptureScreenshot.Report.ctas rep) =
        List.length
          (firstn 8 (filter CaptureScreenshot.is_cta (links_and_buttons d))).
Proof.
  eexists. split; [reflexivity|]. split; [reflexivity|].
  destruct (cta_geometry (serving page_landing) "https://closeclaw.in"
              "/tmp/screenshot.png" 1440 900 3000 boot _ eq_refl)
    as (d & Hd & H).
  exists d. split; [exact Hd | apply (Forall2_length H)].
Defined.

Lemma logo_visible_iff_top_below_witness :
  exists rep,
    captured page_logo_above_viewport 1080 = inr rep /\
    map Logo.visible (CaptureScreenshot.Report.logo_candidates rep) = [true] /\
    exists d, site (serving page_logo_above_viewport) "https://closeclaw.in"
                1440 1080 = Some d /\
      List.length (CaptureScreenshot.Report.logo_candidates rep) =
        List.length
          (firstn 3 (filter CaptureScreenshot.is_logo (imgs_and_svgs d))).
Proof.
  eexists. split; [reflexivity|]. split; [reflexivity|].
  destruct (logo_visible_iff_top_below (serving page_logo_above_viewport)
              "https://closeclaw.in" "/tmp/screenshot.png" 1440 1080 3000 boot
              _ eq_refl)
    as (d & Hd & H).
  exists d. split; [exact Hd | apply (Forall2_length H)].
Defined.

End ReportedFlagWitnesses.
